(** * geogee: shapefile conversion and layer helpers of the interactive map

    A shallow embedding of [geogee/geogee2.py]:
    - [shp_to_geojson] (module level helper),
    - the methods [add_geojson], [add_shapefile], [add_ee_layer] (alias
      [addLayer]) and [ee_tile_layer] of class [Map].
    The constructor of [Map] is [Map_init]: it yields what it hands to the
    widget and how far it got.  In the methods the map appears as the list
    of its layers.

    The Python code threads hidden state through every call: the current
    working directory and the file system (via [os] and [open]), the
    objects reachable through references (the dictionaries passed as
    [vis_params], including the default objects created when the [def]
    statements run), the layers of the map widget, the random generator
    behind [random_string] and the remote Earth Engine service.  All of it
    lives in one record [World]; a method is a function from a [World] to
    an outcome (a value or a raised exception) and the next [World].
    An exception does not roll anything back.

    Libraries outside the repository ([shapefile], [json], [ee], the helper
    [utils.random_string]) are collaborators: they are the fields of the
    class [Collaborators] and every theorem holds for all of them.  Of the
    widget library the constructors are modelled with the checks of their
    traits that the code can run into: the data of a [GeoJSON] layer has to
    be a dictionary, the name of a [TileLayer] a string, the height of the
    layout a string or [None]. *)

From Stdlib Require Import QArith_base.
From Stdlib Require Import Ascii String.
From stdpp Require Import gmap strings list fin_maps.

Open Scope string_scope.
Open Scope list_scope.
Open Scope nat_scope.
Set Warnings "-register-all".

(** ** Python values *)

(** The values that cross the interface of the module: what
    [__geo_interface__] and [json.load] produce, what a caller may pass as
    [in_geojson] or [style].  A [dict] keeps its insertion order, so it is an
    association list.  A float is represented by the rational it denotes.
    Tuples are what [__geo_interface__] gives for coordinates; JSON has
    none. *)
Inductive pyval : Type :=
| PNone
| PBool (b : bool)
| PInt (z : Z)
| PFloat (q : Q)
| PStr (s : string)
| PList (l : list pyval)
| PDict (kvs : list (string * pyval))
| PTuple (items : list pyval).

(** [isinstance(v, str)] and [isinstance(v, dict)]. *)
Definition isinstance_str (v : pyval) : bool :=
  match v with PStr _ => true | _ => false end.

Definition isinstance_dict (v : pyval) : bool :=
  match v with PDict _ => true | _ => false end.

(** ** Paths and the file system *)

(** An absolute path is the list of its components below the root; the root
    itself is [[]]. *)
Abbreviation path := (list string).

Inductive node : Type :=
| File (content : string)
| Dir.

Abbreviation FS := (gmap (list string) node).

(** [str.split(sep)]: always at least one piece. *)
Fixpoint split_on (sep : Ascii.ascii) (s : string) : list string :=
  match s with
  | EmptyString => [EmptyString]
  | String c s' =>
      if Ascii.eqb c sep then EmptyString :: split_on sep s'
      else match split_on sep s' with
           | [] => [String c EmptyString]
           | piece :: pieces => String c piece :: pieces
           end
  end.

(** [os.path.isabs]. *)
Definition isabs (s : string) : bool :=
  match s with
  | String c _ => Ascii.eqb c "/"%char
  | EmptyString => false
  end.

(** The components of [os.path.join(os.getcwd(), s)], not yet normalised. *)
Definition joined (cwd : path) (s : string) : list string :=
  (if isabs s then [] else cwd) ++ split_on "/"%char s.

(** One round of the loop of [posixpath.normpath] on an absolute path: empty
    components and [.] are skipped, [..] drops the last component kept so
    far (and is itself dropped at the root), any other component is kept. *)
Definition norm_step (kept : path) (comp : string) : path :=
  if bool_decide (comp = "" ∨ comp = ".") then kept
  else if bool_decide (comp = "..") then removelast kept
  else kept ++ [comp].

Definition normpath (comps : list string) : path := foldl norm_step [] comps.

(** [os.path.abspath(s)] in working directory [cwd]. *)
Definition abspath (cwd : path) (s : string) : path := normpath (joined cwd s).

(** [os.path.dirname] of a normalised absolute path; the root is its own
    parent. *)
Definition dirname (p : path) : path := removelast p.

(** What is at [p]: the root is always a directory. *)
Definition node_at (fs : FS) (p : path) : option node :=
  match p with
  | [] => Some Dir
  | _ => fs !! p
  end.

Definition is_dir (fs : FS) (p : path) : bool :=
  match node_at fs p with
  | Some Dir => true
  | _ => false
  end.

(** Path resolution as the kernel does it, starting in directory [cur]:
    every component is looked up in a directory, so resolution fails
    ([None]) as soon as the place reached is not a directory. *)
Fixpoint walk (fs : FS) (cur : path) (comps : list string) : option path :=
  match comps with
  | [] => Some cur
  | comp :: rest =>
      if negb (is_dir fs cur) then None
      else if bool_decide (comp = "" ∨ comp = ".") then walk fs cur rest
      else if bool_decide (comp = "..") then walk fs (removelast cur) rest
      else walk fs (cur ++ [comp]) rest
  end.

(** The node a component list (read from the root) resolves to. *)
Definition lookup_path (fs : FS) (comps : list string) : option node :=
  match walk fs [] comps with
  | Some p => node_at fs p
  | None => None
  end.

Inductive errno : Type := ENOENT | ENOTDIR | EISDIR | EEXIST.

(** [os.makedirs(p, exist_ok=True)], walking down from the root with [pre]
    the part already known to be a directory: a missing directory is
    created, an existing one is kept, a regular file in the way is an
    error. *)
Fixpoint makedirs_from (pre : path) (rest : list string) (fs : FS)
  : errno + FS :=
  match rest with
  | [] => inr fs
  | comp :: rest' =>
      let q := pre ++ [comp] in
      match fs !! q with
      | None => makedirs_from q rest' (<[q := Dir]> fs)
      | Some Dir => makedirs_from q rest' fs
      | Some (File _) =>
          inl (match rest' with [] => EEXIST | _ => ENOTDIR end)
      end
  end.

Definition makedirs (p : path) (fs : FS) : errno + FS := makedirs_from [] p fs.

(** [open(p, "w")]: the parent has to be a directory and [p] must not be
    one; the file is created when missing and truncated when present. *)
Definition open_w (p : path) (fs : FS) : errno + FS :=
  match p with
  | [] => inl EISDIR
  | _ =>
      if negb (is_dir fs (dirname p)) then
        inl (match node_at fs (dirname p) with
             | Some _ => ENOTDIR
             | None => ENOENT
             end)
      else match fs !! p with
           | Some Dir => inl EISDIR
           | _ => inr (<[p := File ""]> fs)
           end
  end.

(** [f.write(s)] on the file opened at [p]: appends to what the file
    holds. *)
Definition append_file (p : path) (s : string) (fs : FS) : FS :=
  match fs !! p with
  | Some (File old) => <[p := File (old +:+ s)]> fs
  | _ => <[p := File s]> fs
  end.

(** [os.path.exists] and [open] for reading take the string the caller
    gave; the empty string names nothing. *)
Definition lookup_raw (cwd : path) (fs : FS) (s : string) : option node :=
  if bool_decide (s = "") then None else lookup_path fs (joined cwd s).

(** ** Vocabulary of the statements *)

(** A component that names an entry: neither empty nor [.] nor [..]. *)
Definition plain (comp : string) : bool :=
  negb (bool_decide (comp = "" ∨ comp = ".")) && negb (bool_decide (comp = "..")).

Definition is_file (fs : FS) (p : path) : bool :=
  match fs !! p with
  | Some (File _) => true
  | _ => false
  end.

(** [p] can be written: it is not the root, no regular file sits where one
    of its parent directories has to be, and [p] itself is not a
    directory. *)
Definition writable (fs : FS) (p : path) : bool :=
  match p with
  | [] => false
  | _ =>
      forallb (fun k => negb (is_file fs (take k (dirname p))))
        (seq 1 (length (dirname p)))
      && negb (is_dir fs p)
  end.

(** What JSON keeps of a value: a tuple is written as an array and comes
    back as a list. *)
Fixpoint jsonified (v : pyval) : pyval :=
  match v with
  | PList l => PList (map jsonified l)
  | PTuple l => PList (map jsonified l)
  | PDict kvs => PDict (map (fun kv => (fst kv, jsonified (snd kv))) kvs)
  | _ => v
  end.

(** A file system as the OS keeps it: the root has no entry of its own
    and every entry sits in directories. *)
Definition fs_wf (fs : FS) : Prop :=
  fs !! [] = None ∧
  ∀ p n, fs !! p = Some n →
         ∀ k, 0 < k < length p → fs !! take k p = Some Dir.

(** ** Objects of the map widget and of Earth Engine *)

(** References to mutable objects (the dictionaries passed as
    [vis_params]). *)
Abbreviation loc := positive.
Abbreviation Heap := (gmap positive pyval).

(** The classes [ee_tile_layer] tests for, and [ComputedObject] for every
    other Earth Engine object ([ee.Number], [ee.Filter], ...). *)
Inductive ee_class : Type :=
| Image | ImageCollection | Feature | FeatureCollection | Geometry
| ComputedObject.

Global Instance ee_class_eq_dec : EqDecision ee_class.
Proof. solve_decision. Defined.

Record TileFetcher : Type := { url_format : string }.

(** The dictionary [getMapId] returns, reduced to the entry that is read. *)
Record MapId : Type := { tile_fetcher : TileFetcher }.

(** A tile layer of the widget library, once built. *)
Record TileLayer : Type := {
  tl_url : string;
  tl_name : pyval;
  tl_opacity : pyval;
  tl_visible : pyval;
  tl_attribution : string
}.

(** A GeoJSON layer of the widget library, once built. *)
Record GeoJSON : Type := {
  gj_data : pyval;
  gj_style : pyval;
  gj_name : string
}.

Inductive layer : Type :=
| VectorLayer (g : GeoJSON)
| RasterLayer (t : TileLayer).

(** ** [Map.__init__] *)

(** [kwargs.setdefault(key, value)]: a key that is present keeps its value,
    whatever it is. *)
Definition setdefault (key : string) (value : pyval)
    (kwargs : gmap string pyval) : gmap string pyval :=
  match kwargs !! key with
  | Some _ => kwargs
  | None => <[key := value]> kwargs
  end.

(** [kwargs.get(key, fallback)] *)
Definition dict_get (key : string) (fallback : pyval)
    (kwargs : gmap string pyval) : pyval :=
  default fallback (kwargs !! key).

(** [v == s] for a string literal [s]. *)
Definition eq_str (v : pyval) (s : string) : bool :=
  match v with
  | PStr t => bool_decide (t = s)
  | _ => false
  end.

Inductive control : Type :=
| FullScreenControl
| LayersControl (position : string)
| DrawControl (position : string)
| MeasureControl
| ScaleControl (position : string).

(** The keyword arguments of [TileLayer(url=, attribution=, name=)]. *)
Record BaseLayer : Type := {
  bl_url : string;
  bl_attribution : string;
  bl_name : string
}.

(** ** Collaborators *)

(** Everything the module calls and does not define.  A collaborator may
    fail with an exception of its own ([foreign]); the readers see the file
    system, [getMapId] gets the reference to [vis_params] together with the
    heap and the state of the service, and hands both back.  The widget
    library decides what it takes as opacity, as visibility and as
    arguments of the map. *)
Class Collaborators : Type := {
  foreign : Type;
  shp_reader : Type;
  rng_state : Type;
  ee_handle : Type;
  remote : Type;
  (** [shapefile.Reader(path)] *)
  shapefile_Reader : FS → path → foreign + shp_reader;
  (** [sf.__geo_interface__] *)
  geo_interface : FS → shp_reader → foreign + pyval;
  (** [json.dumps] and [json.loads] *)
  json_dumps : pyval → string;
  json_loads : string → foreign + pyval;
  (** [utils.random_string()] *)
  random_string : rng_state → string * rng_state;
  (** [ee.ImageCollection.mosaic] *)
  mosaic : ee_handle → ee_handle;
  (** [ee_object.getMapId(vis_params)], for the classes that have the
      method *)
  getMapId : ee_class → ee_handle → loc → Heap → remote →
             (foreign + MapId) * Heap * remote;
  (** what the traits of [TileLayer] accept as [opacity] and [visible] *)
  opacity_accepted : pyval → bool;
  visible_accepted : pyval → bool;
  (** whether [ipyleaflet.Map.__init__] accepts the keyword arguments *)
  Map_accepts : gmap string pyval → bool
}.

Section Geogee.
Context `{C : Collaborators}.

(** What can be passed as [ee_object]: an Earth Engine object of some class
    standing for a server-side expression, or any other Python value. *)
Inductive pyobj : Type :=
| EE (c : ee_class) (h : ee_handle)
| NotEE (v : pyval).

(** [isinstance(o, (c1, ..., cn))]. *)
Definition isinstance (o : pyobj) (classes : list ee_class) : bool :=
  match o with
  | EE c _ => bool_decide (c ∈ classes)
  | NotEE _ => false
  end.

(** ** Exceptions *)

(** The three exceptions the module raises itself ([AttributeError] is
    also what Python raises for a method an object does not have), the
    errors of [os] and [open], the error of a trait of the widget library
    that refuses a value, and whatever a collaborator raised, passed on as
    it is. *)
Inductive exn : Type :=
| FileNotFoundError (msg : string)
| TypeError (msg : string)
| AttributeError (msg : string)
| OSError (e : errno)
| Propagated (e : foreign)
| TraitError.

Inductive result (A : Type) : Type :=
| Ok (a : A)
| Raise (e : exn).
Arguments Ok {A} a.
Arguments Raise {A} e.

(** ** The world *)

(** Calls to collaborators, oldest first.  [EvGetMapId] stands for
    [ee_object.getMapId(vis_params)] being evaluated on an object, whether
    or not the object has the method. *)
Inductive event : Type :=
| EvReader (p : path)
| EvGeoInterface
| EvJsonLoad (text : string)
| EvRandomString
| EvMosaic (h : ee_handle)
| EvGetMapId (c : ee_class) (h : ee_handle) (l : loc) (seen : option pyval).

Record World : Type := {
  cwd : path;
  fs : FS;
  heap : Heap;
  layers : list layer;
  rng : rng_state;
  service : remote;
  trace : list event
}.

Definition set_fs (f : FS) (w : World) : World :=
  {| cwd := cwd w; fs := f; heap := heap w; layers := layers w;
     rng := rng w; service := service w; trace := trace w |}.

Definition set_heap (h : Heap) (w : World) : World :=
  {| cwd := cwd w; fs := fs w; heap := h; layers := layers w;
     rng := rng w; service := service w; trace := trace w |}.

Definition set_layers (ls : list layer) (w : World) : World :=
  {| cwd := cwd w; fs := fs w; heap := heap w; layers := ls;
     rng := rng w; service := service w; trace := trace w |}.

Definition set_rng (r : rng_state) (w : World) : World :=
  {| cwd := cwd w; fs := fs w; heap := heap w; layers := layers w;
     rng := r; service := service w; trace := trace w |}.

Definition set_service (r : remote) (w : World) : World :=
  {| cwd := cwd w; fs := fs w; heap := heap w; layers := layers w;
     rng := rng w; service := r; trace := trace w |}.

Definition log (e : event) (w : World) : World :=
  {| cwd := cwd w; fs := fs w; heap := heap w; layers := layers w;
     rng := rng w; service := service w; trace := trace w ++ [e] |}.

(** ** The monad of methods *)

Definition M (A : Type) : Type := World → result A * World.

Definition ret {A} (a : A) : M A := fun w => (Ok a, w).

Definition raise {A} (e : exn) : M A := fun w => (Raise e, w).

Definition bind {A B} (m : M A) (k : A → M B) : M B :=
  fun w =>
    match m w with
    | (Ok a, w') => k a w'
    | (Raise e, w') => (Raise e, w')
    end.

Notation "'let*' x ':=' m 'in' k" := (bind m (fun x => k))
  (at level 10, x name, m at level 100, k at level 200).
Notation "m ';;' k" := (bind m (fun _ => k))
  (at level 100, k at level 200, right associativity).

(** Lift a call that only reads the world. *)
Definition reads {A} (f : World → A) : M A := fun w => (Ok (f w), w).

(** Lift a collaborator or system call on part of the world. *)
Definition of_sum {E A} (wrap : E → exn) (r : E + A) : result A :=
  match r with
  | inl e => Raise (wrap e)
  | inr a => Ok a
  end.

(** ** [os], [open] and the collaborators as actions *)

Definition os_path_abspath (s : string) : M path :=
  reads (fun w => abspath (cwd w) s).

(** [os.path.exists] on a path made absolute before. *)
Definition os_path_exists_abs (p : path) : M bool :=
  reads (fun w => bool_decide (is_Some (lookup_path (fs w) p))).

(** [os.path.exists] on the string the caller gave. *)
Definition os_path_exists (s : string) : M bool :=
  reads (fun w => bool_decide (is_Some (lookup_raw (cwd w) (fs w) s))).

Definition os_makedirs (p : path) : M unit :=
  fun w =>
    match makedirs p (fs w) with
    | inl e => (Raise (OSError e), w)
    | inr fs' => (Ok tt, set_fs fs' w)
    end.

(** [open(p, "w")]; the file object is identified with the path. *)
Definition open_write (p : path) : M path :=
  fun w =>
    match open_w p (fs w) with
    | inl e => (Raise (OSError e), w)
    | inr fs' => (Ok p, set_fs fs' w)
    end.

Definition file_write (f : path) (s : string) : M unit :=
  fun w => (Ok tt, set_fs (append_file f s (fs w)) w).

(** [json.dump(v, f)] *)
Definition json_dump (v : pyval) (f : path) : M unit :=
  file_write f (json_dumps v).

(** [with open(s) as f: json.load(f)] *)
Definition open_json_load (s : string) : M pyval :=
  fun w =>
    match lookup_raw (cwd w) (fs w) s with
    | None => (Raise (OSError ENOENT), w)
    | Some Dir => (Raise (OSError EISDIR), w)
    | Some (File text) =>
        (of_sum Propagated (json_loads text), log (EvJsonLoad text) w)
    end.

Definition call_Reader (p : path) : M shp_reader :=
  fun w => (of_sum Propagated (shapefile_Reader (fs w) p), log (EvReader p) w).

Definition call_geo_interface (sf : shp_reader) : M pyval :=
  fun w => (of_sum Propagated (geo_interface (fs w) sf), log EvGeoInterface w).

Definition call_random_string : M string :=
  fun w =>
    let '(s, r) := random_string (rng w) in
    (Ok s, log EvRandomString (set_rng r w)).

(** ** [shp_to_geojson] *)

Definition shp_to_geojson (in_shp : string) (out_geojson : option string)
  : M pyval :=
  let* in_shp := os_path_abspath in_shp in
  let* found := os_path_exists_abs in_shp in
  if negb found then
    raise (FileNotFoundError "The provided shapefile could not be found.")
  else
    let* sf := call_Reader in_shp in
    let* geojson := call_geo_interface sf in
    match out_geojson with
    | None => ret geojson
    | Some out_geojson =>
        let* out_geojson := os_path_abspath out_geojson in
        os_makedirs (dirname out_geojson) ;;
        let* f := open_write out_geojson in
        json_dump geojson f ;;
        ret geojson
    end.

(** ** class [Map] *)

(** [self.add_layer(l)] of the widget: the layer goes to the end of
    [self.layers]. *)
Definition add_layer (l : layer) : M unit :=
  fun w => (Ok tt, set_layers (layers w ++ [l]) w).

(** [ipyleaflet.GeoJSON(data=, style=, name=)]: the trait of [data] takes
    dictionaries only.  The style is the mapping the caller is asked for. *)
Definition new_GeoJSON (data style : pyval) (name : string) : M GeoJSON :=
  if isinstance_dict data then
    ret {| gj_data := data; gj_style := style; gj_name := name |}
  else raise TraitError.

(** [ipyleaflet.TileLayer(url=, name=, opacity=, visible=, attribution=)]:
    the trait of [name] takes strings only. *)
Definition new_TileLayer (url : string) (name opacity visible : pyval)
    (attribution : string) : M TileLayer :=
  if isinstance_str name && opacity_accepted opacity
     && visible_accepted visible
  then
    ret {| tl_url := url; tl_name := name; tl_opacity := opacity;
           tl_visible := visible; tl_attribution := attribution |}
  else raise TraitError.

(** What the constructor of [Map] hands to the widget, in the order of the
    source: the keyword arguments of [super().__init__], then, as far as it
    gets, the height put into the layout, the controls added and the layer
    added; [raised] is the error that stopped it. *)
Record MapSetup : Type := {
  widget_kwargs : gmap string pyval;
  raised : option exn;
  layout_height : option pyval;
  controls : list control;
  google_layer : option BaseLayer
}.

(** [self.layout.height = v]: the trait takes a string or [None]. *)
Definition height_accepted (v : pyval) : bool :=
  match v with
  | PStr _ | PNone => true
  | _ => false
  end.

(** [Map.__init__(self, **kwargs)] *)
Definition Map_init (kwargs : gmap string pyval) : MapSetup :=
  let kwargs := setdefault "center" (PList [PInt 40; PInt (-100)]) kwargs in
  let kwargs := setdefault "zoom" (PInt 4) kwargs in
  let kwargs := setdefault "scroll_wheel_zoom" (PBool true) kwargs in
  let stopped :=
    {| widget_kwargs := kwargs; raised := Some TraitError;
       layout_height := None; controls := []; google_layer := None |} in
  if negb (Map_accepts kwargs) then stopped
  else
    let height := dict_get "height" (PStr "500px") kwargs in
    if negb (height_accepted height) then stopped
    else
      let google_map := dict_get "google_map" (PStr "ROADMAP") kwargs in
      let '(url, name) :=
        if eq_str google_map "HYBRID" then
          ("https://mt1.google.com/vt/lyrs=y&x={x}&y={y}&z={z}",
           "Google Satellite")
        else
          ("https://mt1.google.com/vt/lyrs=m&x={x}&y={y}&z={z}",
           "Google Maps") in
      {| widget_kwargs := kwargs;
         raised := None;
         layout_height := Some height;
         controls := [ FullScreenControl; LayersControl "topright";
                       DrawControl "topleft"; MeasureControl;
                       ScaleControl "bottomleft" ];
         google_layer := Some {| bl_url := url; bl_attribution := "Google";
                                 bl_name := name |} |}.

(** The dictionary literal of [add_geojson]. *)
Definition default_style : pyval :=
  PDict [ ("stroke", PBool true);
          ("color", PStr "#000000");
          ("weight", PInt 2);
          ("opacity", PInt 1);
          ("fill", PBool true);
          ("fillColor", PStr "#0000ff");
          ("fillOpacity", PFloat (4 # 10)) ].

(** [add_geojson(self, in_geojson, style=None, layer_name="Untitled")];
    an argument left out is [None] here. *)
Definition add_geojson (in_geojson : pyval) (style : option pyval)
    (layer_name : option string) : M unit :=
  let style := default PNone style in
  let layer_name := default "Untitled" layer_name in
  let* layer_name :=
    if bool_decide (layer_name = "Untitled") then
      let* suffix := call_random_string in
      ret ("Untitled_" +:+ suffix)
    else ret layer_name in
  let* data :=
    match in_geojson with
    | PStr file =>
        let* found := os_path_exists file in
        if negb found then raise (FileNotFoundError "GeoJSON file not found.")
        else open_json_load file
    | PDict _ => ret in_geojson
    | _ => raise (TypeError "GeoJSON must be a file path or dict.")
    end in
  let style :=
    match style with
    | PNone => default_style
    | _ => style
    end in
  let* layer := new_GeoJSON data style layer_name in
  add_layer (VectorLayer layer).

(** [add_shapefile(self, in_shp, style=None, layer_name="Untitled")] *)
Definition add_shapefile (in_shp : string) (style : option pyval)
    (layer_name : option string) : M unit :=
  let style := default PNone style in
  let layer_name := default "Untitled" layer_name in
  let* geojson := shp_to_geojson in_shp None in
  add_geojson geojson (Some style) (Some layer_name).

(** The two dictionaries built when the [def] statements of [add_ee_layer]
    and [ee_tile_layer] run ([vis_params={}]): one object each, shared by
    all calls that leave the argument out. *)
Definition add_ee_layer_vis_default : loc := 1%positive.
Definition ee_tile_layer_vis_default : loc := 2%positive.

Definition heap_at_definition : Heap :=
  <[add_ee_layer_vis_default := PDict []]>
    (<[ee_tile_layer_vis_default := PDict []]> ∅).

(** [ee_object.mosaic()]; an object without the method raises. *)
Definition call_mosaic (o : pyobj) : M pyobj :=
  match o with
  | EE _ h => fun w => (Ok (EE Image (mosaic h)), log (EvMosaic h) w)
  | NotEE _ => raise (AttributeError "object has no attribute 'mosaic'")
  end.

(** [ee_object.getMapId(vis_params)]: an [ee.Geometry] has no such method,
    and neither has an object that is no Earth Engine object. *)
Definition call_getMapId (o : pyobj) (vis_params : loc) : M MapId :=
  match o with
  | EE Geometry h =>
      fun w =>
        (Raise (AttributeError "'Geometry' object has no attribute 'getMapId'"),
         log (EvGetMapId Geometry h vis_params (heap w !! vis_params)) w)
  | EE c h =>
      fun w =>
        let '(r, heap', service') :=
          getMapId c h vis_params (heap w) (service w) in
        (of_sum Propagated r,
         set_service service'
           (set_heap heap'
              (log (EvGetMapId c h vis_params (heap w !! vis_params)) w)))
  | NotEE _ => raise (AttributeError "object has no attribute 'getMapId'")
  end.

(** [ee_tile_layer(self, ee_object, vis_params={}, name="Layer untitled",
    shown=True, opacity=1.0)] *)
Definition ee_tile_layer (ee_object : pyobj) (vis_params : option loc)
    (name shown opacity : option pyval) : M TileLayer :=
  let vis_params := default ee_tile_layer_vis_default vis_params in
  let name := default (PStr "Layer untitled") name in
  let shown := default (PBool true) shown in
  let opacity := default (PFloat 1) opacity in
  if negb (isinstance ee_object
             [Image; ImageCollection; Feature; FeatureCollection; Geometry])
  then
    raise (AttributeError
             "ee_object must be an Earth Engine Image, Feature, or Collection.")
  else
    let* ee_object :=
      if isinstance ee_object [ImageCollection] then call_mosaic ee_object
      else ret ee_object in
    let* map_id := call_getMapId ee_object vis_params in
    let tile_url := url_format (tile_fetcher map_id) in
    let* tile_layer :=
      new_TileLayer tile_url name opacity shown "Google Earth Engine" in
    ret tile_layer.

(** [add_ee_layer(self, ee_object, vis_params={}, name=None, shown=True,
    opacity=1.0)]; [addLayer] is the same function. *)
Definition add_ee_layer (ee_object : pyobj) (vis_params : option loc)
    (name shown opacity : option pyval) : M unit :=
  let vis_params := default add_ee_layer_vis_default vis_params in
  let name := default PNone name in
  let shown := default (PBool true) shown in
  let opacity := default (PFloat 1) opacity in
  let* layer :=
    ee_tile_layer ee_object (Some vis_params) (Some name) (Some shown)
      (Some opacity) in
  add_layer (RasterLayer layer).

Definition addLayer := add_ee_layer.

(** ** Vocabulary of the statements about the Earth Engine methods *)

(** The recognised objects, class by class. *)
Definition recognized (o : pyobj) : bool :=
  match o with
  | EE Image _ | EE ImageCollection _ | EE Feature _
  | EE FeatureCollection _ | EE Geometry _ => true
  | EE ComputedObject _ | NotEE _ => false
  end.

(** A call of one of the two methods with its arguments, and runs of such
    calls one after the other on the same map. *)
Inductive ee_call : Type :=
| Call_add_ee_layer (o : pyobj) (vis_params : option loc)
    (name shown opacity : option pyval)
| Call_ee_tile_layer (o : pyobj) (vis_params : option loc)
    (name shown opacity : option pyval).

Definition run_call (c : ee_call) (w : World) : World :=
  match c with
  | Call_add_ee_layer o vis name shown opacity =>
      snd (add_ee_layer o vis name shown opacity w)
  | Call_ee_tile_layer o vis name shown opacity =>
      snd (ee_tile_layer o vis name shown opacity w)
  end.

Definition run_calls (cs : list ee_call) (w : World) : World :=
  foldl (fun w c => run_call c w) w cs.

(** The assumption on the Earth Engine binding under which nothing can
    change a [vis_params] dictionary: [getMapId] hands the heap back as it
    got it. *)
Definition getMapId_reads_only : Prop :=
  ∀ c h l hp sv, snd (fst (getMapId c h l hp sv)) = hp.

End Geogee.

Arguments Ok {C A} a.
Arguments Raise {C A} e.

(** ** A small instance of the collaborators

    Enough of each collaborator to run the methods on concrete worlds: a
    JSON codec for integers, plain strings, lists and dictionaries, a reader
    for a text rendering of point shapefiles, a counter as random generator
    and a service that answers with a URL built from the expression. *)
Module Demo.

Definition dquote : Ascii.ascii := Ascii.ascii_of_nat 34.

Definition quoted (s : string) : string :=
  String dquote (s +:+ String dquote EmptyString).

Fixpoint join (sep : string) (pieces : list string) : string :=
  match pieces with
  | [] => ""
  | [piece] => piece
  | piece :: rest => piece +:+ sep +:+ join sep rest
  end.

Fixpoint digits_of (fuel : nat) (n : N) (acc : string) : string :=
  match fuel with
  | O => acc
  | S fuel' =>
      let d := Ascii.ascii_of_N (48 + n mod 10) in
      if (n <? 10)%N then String d acc
      else digits_of fuel' (n / 10)%N (String d acc)
  end.

Definition decimal (z : Z) : string :=
  let n := Z.abs_N z in
  let body := digits_of (S (N.to_nat (N.log2 n))) n "" in
  if (z <? 0)%Z then String "-" body else body.

(** Text of a value, with the separators [json.dumps] uses by default; a
    tuple is written as an array.  Floats are outside this codec and come
    out as [null]. *)
Fixpoint dumps (v : pyval) : string :=
  match v with
  | PNone => "null"
  | PBool true => "true"
  | PBool false => "false"
  | PInt z => decimal z
  | PFloat _ => "null"
  | PStr s => quoted s
  | PList l => "[" +:+ join ", " (map dumps l) +:+ "]"
  | PTuple l => "[" +:+ join ", " (map dumps l) +:+ "]"
  | PDict kvs =>
      "{" +:+ join ", " (map (fun kv => quoted (fst kv) +:+ ": " +:+ dumps (snd kv)) kvs)
          +:+ "}"
  end.

Fixpoint skip_ws (s : string) : string :=
  match s with
  | String " " s' => skip_ws s'
  | _ => s
  end.

(** The characters up to the closing quote, and what follows it. *)
Fixpoint read_quoted (s : string) : option (string * string) :=
  match s with
  | EmptyString => None
  | String c s' =>
      if Ascii.eqb c dquote then Some ("", s')
      else match read_quoted s' with
           | Some (body, rest) => Some (String c body, rest)
           | None => None
           end
  end.

Definition digit_value (c : Ascii.ascii) : option N :=
  let n := Ascii.N_of_ascii c in
  if ((48 <=? n) && (n <=? 57))%N then Some (n - 48)%N else None.

Fixpoint read_digits (s : string) (acc : N) : N * string :=
  match s with
  | String c s' =>
      match digit_value c with
      | Some d => read_digits s' (10 * acc + d)%N
      | None => (acc, s)
      end
  | EmptyString => (acc, s)
  end.

Definition read_number (s : string) : option (Z * string) :=
  match s with
  | String "-" (String c s') =>
      match digit_value c with
      | Some _ => let '(n, rest) := read_digits (String c s') 0 in
                  Some (- Z.of_N n, rest)%Z
      | None => None
      end
  | String c _ =>
      match digit_value c with
      | Some _ => let '(n, rest) := read_digits s 0 in Some (Z.of_N n, rest)
      | None => None
      end
  | EmptyString => None
  end.

Fixpoint parse_value (fuel : nat) (s : string) : option (pyval * string) :=
  match fuel with
  | O => None
  | S fuel' =>
      match skip_ws s with
      | String "n" (String "u" (String "l" (String "l" rest))) =>
          Some (PNone, rest)
      | String "t" (String "r" (String "u" (String "e" rest))) =>
          Some (PBool true, rest)
      | String "f" (String "a" (String "l" (String "s" (String "e" rest)))) =>
          Some (PBool false, rest)
      | String "[" rest =>
          match skip_ws rest with
          | String "]" rest' => Some (PList [], rest')
          | _ =>
              match parse_items fuel' rest with
              | Some (items, rest') => Some (PList items, rest')
              | None => None
              end
          end
      | String "{" rest =>
          match skip_ws rest with
          | String "}" rest' => Some (PDict [], rest')
          | _ =>
              match parse_members fuel' rest with
              | Some (members, rest') => Some (PDict members, rest')
              | None => None
              end
          end
      | String c rest =>
          if Ascii.eqb c dquote then
            match read_quoted rest with
            | Some (body, rest') => Some (PStr body, rest')
            | None => None
            end
          else
            match read_number (String c rest) with
            | Some (z, rest') => Some (PInt z, rest')
            | None => None
            end
      | EmptyString => None
      end
  end
with parse_items (fuel : nat) (s : string) : option (list pyval * string) :=
  match fuel with
  | O => None
  | S fuel' =>
      match parse_value fuel' s with
      | Some (v, rest) =>
          match skip_ws rest with
          | String "," rest' =>
              match parse_items fuel' rest' with
              | Some (vs, rest'') => Some (v :: vs, rest'')
              | None => None
              end
          | String "]" rest' => Some ([v], rest')
          | _ => None
          end
      | None => None
      end
  end
with parse_members (fuel : nat) (s : string)
  : option (list (string * pyval) * string) :=
  match fuel with
  | O => None
  | S fuel' =>
      match skip_ws s with
      | String c rest =>
          if Ascii.eqb c dquote then
            match read_quoted rest with
            | Some (key, rest1) =>
                match skip_ws rest1 with
                | String ":" rest2 =>
                    match parse_value fuel' rest2 with
                    | Some (v, rest3) =>
                        match skip_ws rest3 with
                        | String "," rest4 =>
                            match parse_members fuel' rest4 with
                            | Some (kvs, rest5) => Some ((key, v) :: kvs, rest5)
                            | None => None
                            end
                        | String "}" rest4 => Some ([(key, v)], rest4)
                        | _ => None
                        end
                    | None => None
                    end
                | _ => None
                end
            | None => None
            end
          else None
      | EmptyString => None
      end
  end.

Definition loads (text : string) : string + pyval :=
  match parse_value (S (String.length text)) text with
  | Some (v, rest) =>
      match skip_ws rest with
      | EmptyString => inr v
      | _ => inl "Extra data"
      end
  | None => inl "Expecting value"
  end.

(** A point shapefile as text: records separated by [;], each record the
    two integer coordinates separated by [,]; the empty text has no
    record.  As with the real reader, the coordinates of a point come as a
    tuple. *)
Definition point_feature (record : string) : option pyval :=
  match split_on "," record with
  | [x; y] =>
      match read_number x, read_number y with
      | Some (x, EmptyString), Some (y, EmptyString) =>
          Some (PDict [ ("type", PStr "Feature");
                        ("properties", PDict []);
                        ("geometry",
                         PDict [ ("type", PStr "Point");
                                 ("coordinates", PTuple [PInt x; PInt y]) ]) ])
      | _, _ => None
      end
  | _ => None
  end.

Fixpoint point_features (records : list string) : option (list pyval) :=
  match records with
  | [] => Some []
  | record :: rest =>
      match point_feature record, point_features rest with
      | Some f, Some fs => Some (f :: fs)
      | _, _ => None
      end
  end.

Definition read_points (fs : FS) (p : path) : string + pyval :=
  match fs !! p with
  | Some (File text) =>
      match point_features (if bool_decide (text = "") then []
                            else split_on ";" text) with
      | Some features =>
          inr (PDict [ ("type", PStr "FeatureCollection");
                       ("features", PList features) ])
      | None => inl "not a shapefile"
      end
  | _ => inl "cannot open"
  end.

Definition open_points (fs : FS) (p : path) : string + path :=
  match fs !! p with
  | Some (File _) => inr p
  | _ => inl "cannot open"
  end.

Definition tile_service (c : ee_class) (h : string) (l : loc) (hp : Heap)
    (reqs : nat) : (string + MapId) * Heap * nat :=
  if bool_decide (h = "") then (inl "empty expression", hp, S reqs)
  else
    (inr {| tile_fetcher :=
              {| url_format :=
                   "https://earthengine.googleapis.com/map/" +:+ h
                     +:+ "/{z}/{x}/{y}" |} |},
     hp, S reqs).

(** A number from 0 to 1. *)
Definition unit_interval (v : pyval) : bool :=
  match v with
  | PFloat q => (0 <=? Qnum q)%Z && (Qnum q <=? Z.pos (Qden q))%Z
  | PInt z => (0 <=? z)%Z && (z <=? 1)%Z
  | _ => false
  end.

(** The map takes a number as zoom. *)
Definition zoom_is_number (kwargs : gmap string pyval) : bool :=
  match kwargs !! "zoom" with
  | Some (PInt _) | Some (PFloat _) | None => true
  | Some _ => false
  end.

#[export] Instance collaborators : Collaborators := {|
  foreign := string;
  shp_reader := path;
  rng_state := nat;
  ee_handle := string;
  remote := nat;
  shapefile_Reader := open_points;
  geo_interface := read_points;
  json_dumps := dumps;
  json_loads := loads;
  random_string := fun n => (decimal (Z.of_nat n), S n);
  mosaic := fun h => "mosaic(" +:+ h +:+ ")";
  getMapId := tile_service;
  opacity_accepted := unit_interval;
  visible_accepted := fun v => match v with PBool _ => true | _ => false end;
  Map_accepts := zoom_is_number
|}.

(** A world with two shapefiles, [/data/points.shp] and the empty
    [/data/empty.shp], a regular file [/data/notes] and the working
    directory [/home]. *)
Definition disk : FS :=
  <[ ["data"; "empty.shp"] := File "" ]>
  (<[ ["data"; "points.shp"] := File "1,2;3,4;-5,6" ]>
    (<[ ["data"; "notes"] := File "old" ]>
       (<[ ["data"] := Dir ]> (<[ ["home"] := Dir ]> ∅)))).

Definition world : World :=
  {| cwd := ["home"]; fs := disk; heap := heap_at_definition; layers := [];
     rng := 7; service := 0; trace := [] |}.

Definition point (x y : Z) : pyval :=
  PDict [ ("type", PStr "Feature");
          ("properties", PDict []);
          ("geometry",
           PDict [ ("type", PStr "Point");
                   ("coordinates", PTuple [PInt x; PInt y]) ]) ].

(** What the reader makes of [/data/points.shp]. *)
Definition points : pyval :=
  PDict [ ("type", PStr "FeatureCollection");
          ("features", PList [point 1 2; point 3 4; point (-5) 6]) ].

(** What the reader makes of [/data/empty.shp]. *)
Definition no_points : pyval :=
  PDict [ ("type", PStr "FeatureCollection"); ("features", PList []) ].

End Demo.

(** * Properties *)

(** Unfolding the plumbing of the monad and of the actions. *)
Ltac unfold_actions :=
  unfold os_path_abspath, os_path_exists_abs, os_path_exists, os_makedirs,
    open_write, json_dump, file_write, open_json_load, call_Reader,
    call_geo_interface, call_random_string, add_layer, new_GeoJSON,
    new_TileLayer;
  unfold bind, ret, raise, reads.

(** ** Paths *)

Lemma removelast_plain (p : path) :
  Forall (fun c => plain c = true) p →
  Forall (fun c => plain c = true) (removelast p).
Proof.
  induction p as [|c p IH]; intros H; [constructor|].
  inversion H as [|? ? Hc Hp]; subst. simpl.
  destruct p as [|d p]; [constructor|].
  constructor; [exact Hc | exact (IH Hp)].
Qed.

Lemma norm_step_plain (kept : path) (comp : string) :
  Forall (fun c => plain c = true) kept →
  Forall (fun c => plain c = true) (norm_step kept comp).
Proof.
  intros H. unfold norm_step.
  destruct (bool_decide (comp = "" ∨ comp = ".")) eqn:E1; [exact H|].
  destruct (bool_decide (comp = "..")) eqn:E2; [by apply removelast_plain|].
  apply Forall_app. split; [exact H|].
  constructor; [|constructor]. unfold plain. by rewrite E1, E2.
Qed.

Lemma foldl_norm_step_plain (comps : list string) (kept : path) :
  Forall (fun c => plain c = true) kept →
  Forall (fun c => plain c = true) (foldl norm_step kept comps).
Proof.
  revert kept. induction comps as [|c comps IH]; intros kept H; simpl.
  - exact H.
  - apply IH. by apply norm_step_plain.
Qed.

(** [os.path.abspath] returns a normalised path. *)
Lemma abspath_plain (cwd : path) (s : string) :
  Forall (fun c => plain c = true) (abspath cwd s).
Proof. unfold abspath, normpath. apply foldl_norm_step_plain. constructor. Qed.

(** On plain components resolution just descends, and it succeeds exactly
    when every directory on the way is one. *)
Lemma walk_plain (fs : FS) (comps : list string) (cur : path) :
  Forall (fun c => plain c = true) comps →
  (∀ k, k < length comps → is_dir fs (cur ++ take k comps) = true) →
  walk fs cur comps = Some (cur ++ comps).
Proof.
  revert cur. induction comps as [|c comps IH]; intros cur Hp Hd; simpl.
  - by rewrite app_nil_r.
  - inversion Hp as [|? ? Hc Hp']; subst.
    pose proof (Hd 0 ltac:(simpl; lia)) as H0. simpl in H0.
    rewrite app_nil_r in H0. rewrite H0. simpl.
    unfold plain in Hc. apply andb_true_iff in Hc as [Hc1 Hc2].
    apply negb_true_iff in Hc1, Hc2. rewrite Hc1, Hc2.
    rewrite (IH (cur ++ [c]) Hp').
    + by rewrite <- app_assoc.
    + intros k Hk. rewrite <- app_assoc. simpl.
      apply (Hd (S k)). simpl. lia.
Qed.

Lemma lookup_path_plain (fs : FS) (p : path) :
  Forall (fun c => plain c = true) p →
  (∀ k, k < length p → is_dir fs (take k p) = true) →
  lookup_path fs p = node_at fs p.
Proof.
  intros Hp Hd. unfold lookup_path.
  by rewrite (walk_plain fs p [] Hp Hd).
Qed.

(** ** [os.makedirs] and [open] *)

(** A successful [makedirs] only adds directories, and only on the way
    down to its argument. *)
Lemma makedirs_from_changes (rest : list string) (pre : path) (fs fs' : FS) :
  makedirs_from pre rest fs = inr fs' →
  ∀ q, fs' !! q = fs !! q ∨
       (fs !! q = None ∧ fs' !! q = Some Dir ∧
        ∃ k, 0 < k ≤ length rest ∧ q = pre ++ take k rest).
Proof.
  revert pre fs. induction rest as [|c rest IH]; intros pre fs H q; simpl in H.
  - injection H as <-. by left.
  - destruct (fs !! (pre ++ [c])) as [[content|]|] eqn:E; [done| |].
    + destruct (IH _ _ H q) as [Hq|(Hn & Hd & k & Hk & ->)]; [by left|].
      right. split; [exact Hn|]. split; [exact Hd|].
      exists (S k). simpl. split; [lia|]. by rewrite <- app_assoc.
    + destruct (IH _ _ H q) as [Hq|(Hn & Hd & k & Hk & ->)].
      * destruct (decide (q = pre ++ [c])) as [->|Hne].
        -- right. rewrite lookup_insert_eq in Hq.
           split; [exact E|]. split; [exact Hq|].
           exists 1. simpl. split; [lia|]. by rewrite take_0.
        -- left. by rewrite lookup_insert_ne in Hq.
      * right. destruct (decide (pre ++ [c] = (pre ++ [c]) ++ take k rest))
          as [Heq|Hne].
        -- rewrite <- Heq, lookup_insert_eq in Hn. done.
        -- rewrite lookup_insert_ne in Hn by done.
           split; [exact Hn|]. split; [exact Hd|].
           exists (S k). simpl. split; [lia|]. by rewrite <- app_assoc.
Qed.

Lemma makedirs_from_keeps (rest : list string) (pre : path) (fs fs' : FS)
    (q : path) (n : node) :
  makedirs_from pre rest fs = inr fs' →
  fs !! q = Some n → fs' !! q = Some n.
Proof.
  intros H Hq.
  destruct (makedirs_from_changes _ _ _ _ H q) as [->|(Hn & _)]; congruence.
Qed.

(** Afterwards every directory on the way exists. *)
Lemma makedirs_from_dirs (rest : list string) (pre : path) (fs fs' : FS) :
  makedirs_from pre rest fs = inr fs' →
  ∀ k, 0 < k ≤ length rest → fs' !! (pre ++ take k rest) = Some Dir.
Proof.
  revert pre fs. induction rest as [|c rest IH]; intros pre fs H k Hk;
    simpl in *; [lia|].
  assert (∃ fs1, makedirs_from (pre ++ [c]) rest fs1 = inr fs' ∧
                 fs1 !! (pre ++ [c]) = Some Dir) as (fs1 & H1 & Hc).
  { destruct (fs !! (pre ++ [c])) as [[content|]|] eqn:E; [done| |].
    - by exists fs.
    - eexists. split; [exact H|]. by rewrite lookup_insert_eq. }
  destruct k as [|[|k]]; [lia| |].
  - simpl. rewrite take_0. by apply (makedirs_from_keeps _ _ _ _ _ _ H1).
  - change (take (S (S k)) (c :: rest)) with (c :: take (S k) rest).
    change (pre ++ c :: take (S k) rest)
      with (pre ++ [c] ++ take (S k) rest).
    rewrite app_assoc. apply (IH _ _ H1). lia.
Qed.

(** It succeeds when no regular file is in the way. *)
Lemma makedirs_from_ok (rest : list string) (pre : path) (fs : FS) :
  (∀ k, 0 < k ≤ length rest → is_file fs (pre ++ take k rest) = false) →
  ∃ fs', makedirs_from pre rest fs = inr fs'.
Proof.
  revert pre fs. induction rest as [|c rest IH]; intros pre fs H; simpl.
  - by eexists.
  - assert (∀ fs1 : FS,
             (∀ q, fs1 !! q = fs !! q ∨ fs1 !! q = Some Dir) →
             ∃ fs', makedirs_from (pre ++ [c]) rest fs1 = inr fs') as Hrec.
    { intros fs1 H1. apply IH. intros k Hk.
      pose proof (H (S k) ltac:(simpl; lia)) as Hf. simpl in Hf.
      rewrite <- app_assoc. simpl. unfold is_file in *.
      destruct (H1 (pre ++ c :: take k rest)) as [->| ->]; done. }
    pose proof (H 1 ltac:(simpl; lia)) as Hf. simpl in Hf.
    rewrite take_0 in Hf. unfold is_file in Hf.
    destruct (fs !! (pre ++ [c])) as [[content|]|] eqn:E; [done| |].
    + apply Hrec. by left.
    + apply Hrec. intros q. destruct (decide (q = pre ++ [c])) as [->|Hne].
      * right. by rewrite lookup_insert_eq.
      * left. by rewrite lookup_insert_ne.
Qed.

(** And only then. *)
Lemma makedirs_from_inr (rest : list string) (pre : path) (fs fs' : FS) :
  makedirs_from pre rest fs = inr fs' →
  ∀ k, 0 < k ≤ length rest → is_file fs (pre ++ take k rest) = false.
Proof.
  revert pre fs. induction rest as [|c rest IH]; intros pre fs H k Hk;
    simpl in *; [lia|].
  destruct k as [|[|k]]; [lia| |].
  - simpl. rewrite take_0. unfold is_file.
    by destruct (fs !! (pre ++ [c])) as [[content|]|].
  - change (take (S (S k)) (c :: rest)) with (c :: take (S k) rest).
    change (pre ++ c :: take (S k) rest)
      with (pre ++ [c] ++ take (S k) rest).
    rewrite app_assoc.
    destruct (fs !! (pre ++ [c])) as [[content|]|] eqn:E; [done| |].
    + apply (IH _ _ H). lia.
    + pose proof (IH _ _ H (S k) ltac:(lia)) as Hf. unfold is_file in *.
      destruct (decide (pre ++ [c] = (pre ++ [c]) ++ take (S k) rest))
        as [Heq|Hne].
      * by rewrite <- Heq, E.
      * by rewrite lookup_insert_ne in Hf.
Qed.

Lemma dirname_take (p : path) : dirname p = take (length p - 1) p.
Proof.
  unfold dirname. rewrite removelast_firstn_len. f_equal. lia.
Qed.

Lemma length_dirname (p : path) : length (dirname p) = length p - 1.
Proof. rewrite dirname_take, length_take. lia. Qed.

Lemma take_dirname (p : path) (k : nat) :
  k ≤ length p - 1 → take k (dirname p) = take k p.
Proof.
  intros Hk. rewrite dirname_take, take_take. f_equal. lia.
Qed.

Lemma take_ne_whole (p : path) (k : nat) : k < length p → take k p ≠ p.
Proof.
  intros Hk Heq. apply (f_equal length) in Heq.
  rewrite length_take in Heq. lia.
Qed.

(** What writing to [p] leaves behind, for any file system on which
    [makedirs] and [open] go through. *)
Lemma written_file (fs fs1 : FS) (p : path) (text : string) :
  writable fs p = true →
  makedirs (dirname p) fs = inr fs1 →
  open_w p fs1 = inr (<[p := File ""]> fs1) ∧
  append_file p text (<[p := File ""]> fs1) = <[p := File text]> fs1 ∧
  (∀ k, k < length p → is_dir (<[p := File text]> fs1) (take k p) = true).
Proof.
  intros Hw Hm. unfold makedirs in Hm.
  destruct p as [|c p']; [done|]. set (p := c :: p') in *.
  assert (length p = S (length p')) as Hlen by done.
  unfold writable in Hw. fold p in Hw.
  apply andb_true_iff in Hw as [_ Hnd]. apply negb_true_iff in Hnd.
  assert (∀ k, k < length p → is_dir fs1 (take k p) = true) as Hdirs.
  { intros k Hk. destruct k as [|k]; [done|].
    unfold is_dir, node_at.
    pose proof (makedirs_from_dirs _ _ _ _ Hm (S k)) as Hd.
    rewrite length_dirname in Hd. cbn [app] in Hd.
    rewrite take_dirname in Hd by lia.
    rewrite Hd by lia. by destruct (take (S k) p). }
  assert (fs1 !! p ≠ Some Dir) as Hp.
  { destruct (makedirs_from_changes _ _ _ _ Hm p)
      as [->|(_ & _ & k & Hk & Heq)].
    - unfold is_dir, node_at in Hnd. fold p in Hnd. intros E.
      rewrite E in Hnd. done.
    - cbn [app] in Heq. rewrite length_dirname in Hk.
      rewrite take_dirname in Heq by lia.
      symmetry in Heq. apply take_ne_whole in Heq; [done|lia]. }
  split; [|split].
  - unfold open_w. fold p.
    rewrite dirname_take. rewrite Hdirs by lia. simpl.
    destruct (fs1 !! p) as [[content|]|]; done.
  - unfold append_file. rewrite lookup_insert_eq. simpl.
    by rewrite insert_insert_eq.
  - intros k Hk. pose proof (Hdirs k Hk) as Hd.
    unfold is_dir, node_at in *.
    destruct (take k p) eqn:E; [done|].
    rewrite lookup_insert_ne; [exact Hd|].
    rewrite <- E. intros Heq. symmetry in Heq.
    by apply take_ne_whole in Heq.
Qed.

Lemma writable_makedirs (fs : FS) (p : path) :
  writable fs p = true → ∃ fs1, makedirs (dirname p) fs = inr fs1.
Proof.
  intros Hw. unfold makedirs. apply makedirs_from_ok.
  intros k Hk. simpl. destruct p as [|c p']; [done|].
  unfold writable in Hw. apply andb_true_iff in Hw as [Hall _].
  rewrite forallb_forall in Hall.
  specialize (Hall k). rewrite negb_true_iff in Hall.
  apply Hall. apply in_seq. lia.
Qed.

(** [writable] is exactly what [makedirs] followed by [open] needs. *)
Lemma writable_iff (fs : FS) (p : path) :
  writable fs p = true ↔
  ∃ fs1 fs2, makedirs (dirname p) fs = inr fs1 ∧ open_w p fs1 = inr fs2.
Proof.
  split.
  - intros Hw. destruct (writable_makedirs _ _ Hw) as [fs1 Hm].
    destruct (written_file _ _ _ "" Hw Hm) as (Ho & _).
    by eexists _, _.
  - intros (fs1 & fs2 & Hm & Ho). unfold makedirs in Hm.
    destruct p as [|c p']; [done|]. set (p := c :: p') in *.
    unfold writable. fold p. apply andb_true_iff. split.
    + apply forallb_forall. intros k Hk. apply in_seq in Hk.
      apply negb_true_iff.
      apply (makedirs_from_inr _ [] _ _ Hm k). lia.
    + apply negb_true_iff. unfold is_dir, node_at. fold p.
      destruct (fs !! p) as [[content|]|] eqn:E; [done| |done].
      apply (makedirs_from_keeps _ _ _ _ _ _ Hm) in E.
      unfold open_w in Ho. fold p in Ho. rewrite E in Ho.
      by destruct (negb (is_dir fs1 (dirname p))).
Qed.

Lemma is_dir_lookup (fs : FS) (q : path) :
  q ≠ [] → is_dir fs q = true → fs !! q = Some Dir.
Proof.
  unfold is_dir, node_at. destruct q; [done|]. intros _.
  by destruct (fs !! (s :: q)) as [[content|]|].
Qed.

(** Once written, [p] can be written again. *)
Lemma writable_again (fs : FS) (p : path) (text : string) :
  p ≠ [] →
  (∀ k, k < length p → is_dir fs (take k p) = true) →
  fs !! p = Some (File text) →
  writable fs p = true.
Proof.
  intros Hne Hdirs Hp. destruct p as [|c p']; [done|].
  set (p := c :: p') in *. unfold writable. fold p.
  assert (length p = S (length p')) as Hlen by done.
  apply andb_true_iff. split.
  - apply forallb_forall. intros k Hk. apply in_seq in Hk.
    rewrite length_dirname in Hk. rewrite take_dirname by lia.
    apply negb_true_iff. unfold is_file.
    rewrite (is_dir_lookup fs (take k p)); [done| |apply Hdirs; lia].
    destruct k; [lia|]. done.
  - unfold is_dir, node_at. fold p. by rewrite Hp.
Qed.

(** ** Well-formed file systems *)

(** Putting a node where no directory is, inside a directory, keeps the
    file system well formed. *)
Lemma insert_wf (fs : FS) (q : path) (n : node) :
  fs_wf fs → q ≠ [] → is_dir fs (dirname q) = true → fs !! q ≠ Some Dir →
  fs_wf (<[q := n]> fs).
Proof.
  intros [Hroot Hwf] Hq Hparent Hnd. split.
  - by rewrite lookup_insert_ne.
  - intros p n' Hp k Hk.
    assert (fs !! take k p = Some Dir) as Hd.
    { destruct (decide (p = q)) as [->|Hne].
      - destruct (decide (k = length q - 1)) as [->|Hk'].
        + rewrite <- dirname_take. apply is_dir_lookup; [|exact Hparent].
          intros E. apply (f_equal length) in E.
          rewrite length_dirname in E. simpl in E. lia.
        + rewrite <- take_dirname by lia.
          apply (Hwf (dirname q) Dir).
          * apply is_dir_lookup; [|exact Hparent].
            intros E. apply (f_equal length) in E.
            rewrite length_dirname in E. simpl in E. lia.
          * rewrite length_dirname. lia.
      - rewrite lookup_insert_ne in Hp by done. by apply (Hwf p n'). }
    rewrite lookup_insert_ne; [exact Hd|]. intros E. congruence.
Qed.

Lemma makedirs_from_wf (rest : list string) (pre : path) (fs fs' : FS) :
  fs_wf fs → is_dir fs pre = true →
  makedirs_from pre rest fs = inr fs' → fs_wf fs'.
Proof.
  revert pre fs. induction rest as [|c rest IH]; intros pre fs Hwf Hpre H;
    simpl in H.
  - by injection H as <-.
  - assert (pre ++ [c] ≠ []) as Hne by (by destruct pre).
    destruct (fs !! (pre ++ [c])) as [[content|]|] eqn:E; [done| |].
    + apply (IH (pre ++ [c]) fs Hwf); [|exact H].
      unfold is_dir, node_at. rewrite E. by destruct (pre ++ [c]).
    + apply (IH (pre ++ [c]) (<[pre ++ [c] := Dir]> fs)); [| |exact H].
      * apply insert_wf; [exact Hwf|exact Hne| |congruence].
        unfold dirname. by rewrite removelast_last.
      * unfold is_dir, node_at. rewrite lookup_insert_eq.
        by destruct (pre ++ [c]).
Qed.

Lemma open_w_inr (fs fs' : FS) (p : path) :
  open_w p fs = inr fs' →
  p ≠ [] ∧ is_dir fs (dirname p) = true ∧ fs !! p ≠ Some Dir ∧
  fs' = <[p := File ""]> fs.
Proof.
  unfold open_w. destruct p as [|c p']; [done|].
  destruct (is_dir fs (dirname (c :: p'))); simpl; [|done].
  destruct (fs !! (c :: p')) as [[content|]|]; [|done|];
    intros [= <-]; done.
Qed.

Lemma is_dir_insert_other (fs : FS) (p q : path) (n : node) :
  p ≠ q → is_dir (<[p := n]> fs) q = is_dir fs q.
Proof.
  intros Hne. unfold is_dir, node_at. destruct q; [done|].
  by rewrite lookup_insert_ne.
Qed.

Lemma dirname_ne (p : path) : p ≠ [] → p ≠ dirname p.
Proof.
  intros Hne E. apply (f_equal length) in E. rewrite length_dirname in E.
  destruct p; [done|]. simpl in E. lia.
Qed.

(** Plain components resolve to themselves or not at all. *)
Lemma walk_plain_inv (fs : FS) (comps : list string) (cur r : path) :
  Forall (fun c => plain c = true) comps →
  walk fs cur comps = Some r → r = cur ++ comps.
Proof.
  revert cur. induction comps as [|c comps IH]; intros cur Hp H; simpl in H.
  - injection H as <-. by rewrite app_nil_r.
  - inversion Hp as [|? ? Hc Hp']; subst.
    destruct (is_dir fs cur); simpl in H; [|done].
    unfold plain in Hc. apply andb_true_iff in Hc as [Hc1 Hc2].
    apply negb_true_iff in Hc1, Hc2. rewrite Hc1, Hc2 in H.
    rewrite (IH _ Hp' H). by rewrite <- app_assoc.
Qed.

(** On a well-formed file system resolving a normalised path is looking it
    up. *)
Lemma lookup_path_wf (fs : FS) (p : path) :
  fs_wf fs → Forall (fun c => plain c = true) p →
  lookup_path fs p = node_at fs p.
Proof.
  intros [Hroot Hwf] Hp. unfold lookup_path.
  destruct (walk fs [] p) as [r|] eqn:E.
  - by rewrite (walk_plain_inv _ _ _ _ Hp E).
  - destruct p as [|c p']; [done|]. unfold node_at.
    destruct (fs !! (c :: p')) as [n|] eqn:En; [|done]. exfalso.
    rewrite (walk_plain fs (c :: p') [] Hp) in E; [done|].
    intros k Hk. destruct k as [|k]; [done|].
    unfold is_dir, node_at. cbn [app].
    rewrite (Hwf _ _ En (S k)) by lia. by destruct (take (S k) (c :: p')).
Qed.

(** ** [shp_to_geojson] *)

Section Conversion.
Context `{C : Collaborators}.

(** The guard: a missing input stops the call with the world as it was. *)
Lemma shp_to_geojson_missing (w : World) (in_shp : string)
    (out_geojson : option string) :
  lookup_path (fs w) (abspath (cwd w) in_shp) = None →
  shp_to_geojson in_shp out_geojson w =
    (Raise (FileNotFoundError "The provided shapefile could not be found."), w).
Proof.
  intros H. unfold shp_to_geojson. unfold_actions.
  rewrite H. rewrite bool_decide_eq_false_2; [done|].
  by intros [n Hn].
Qed.


(** The call with an output path that can be written. *)
Lemma shp_to_geojson_written (w : World) (in_shp out : string)
    (sf : shp_reader) (g : pyval) :
  is_Some (lookup_path (fs w) (abspath (cwd w) in_shp)) →
  shapefile_Reader (fs w) (abspath (cwd w) in_shp) = inr sf →
  geo_interface (fs w) sf = inr g →
  writable (fs w) (abspath (cwd w) out) = true →
  ∃ fs1,
    makedirs (dirname (abspath (cwd w) out)) (fs w) = inr fs1 ∧
    shp_to_geojson in_shp (Some out) w =
      (Ok g,
       set_fs (<[abspath (cwd w) out := File (json_dumps g)]> fs1)
         (log EvGeoInterface (log (EvReader (abspath (cwd w) in_shp)) w))).
Proof.
  intros He Hr Hg Hw.
  destruct (writable_makedirs _ _ Hw) as [fs1 Hm]. exists fs1.
  split; [exact Hm|].
  destruct (written_file _ _ _ (json_dumps g) Hw Hm) as (Ho & Ha & _).
  unfold shp_to_geojson. unfold_actions.
  rewrite bool_decide_eq_true_2 by exact He. simpl.
  rewrite Hr. simpl. rewrite Hg. simpl. rewrite Hm. simpl.
  rewrite Ho. simpl. rewrite Ha. done.
Qed.

(** With a good input, the call with an output path returns exactly when
    the path can be written. *)
Lemma shp_to_geojson_returns_iff (w : World) (in_shp out : string)
    (sf : shp_reader) (g : pyval) :
  is_Some (lookup_path (fs w) (abspath (cwd w) in_shp)) →
  shapefile_Reader (fs w) (abspath (cwd w) in_shp) = inr sf →
  geo_interface (fs w) sf = inr g →
  (∃ w', shp_to_geojson in_shp (Some out) w = (Ok g, w')) ↔
  writable (fs w) (abspath (cwd w) out) = true.
Proof.
  intros He Hr Hg. split.
  - intros [w' H]. apply writable_iff. revert H.
    unfold shp_to_geojson. unfold_actions.
    rewrite bool_decide_eq_true_2 by exact He. simpl.
    rewrite Hr. simpl. rewrite Hg. simpl.
    destruct (makedirs _ _) as [e|fs1]; simpl; [done|].
    destruct (open_w _ fs1) as [e|fs2] eqn:Ho; simpl; [done|].
    intros _. by eexists _, _.
  - intros Hw.
    destruct (shp_to_geojson_written w in_shp out sf g He Hr Hg Hw)
      as (fs1 & _ & H).
    by eexists.
Qed.

(** Whatever the call returns is what the reader produced from the file
    system and the absolute input path. *)
Lemma shp_to_geojson_value (w : World) (in_shp : string)
    (out_geojson : option string) (g : pyval) :
  fst (shp_to_geojson in_shp out_geojson w) = Ok g →
  ∃ sf, shapefile_Reader (fs w) (abspath (cwd w) in_shp) = inr sf ∧
        geo_interface (fs w) sf = inr g.
Proof.
  unfold shp_to_geojson. unfold_actions.
  destruct (bool_decide _); simpl; [|done].
  destruct (shapefile_Reader _ _) as [e|sf]; simpl; [done|].
  destruct (geo_interface _ sf) as [e|g'] eqn:Hg; simpl; [done|].
  intros H. exists sf. split; [done|]. rewrite Hg. f_equal.
  destruct out_geojson as [out|]; simpl in H; [|congruence].
  destruct (makedirs _ _); simpl in H; [done|].
  destruct (open_w _ _); simpl in H; [done|]. congruence.
Qed.

(** Outcome and file system after a call are determined by the working
    directory, the file system and the two arguments. *)
Lemma shp_to_geojson_outcome (w1 w2 : World) (in_shp : string)
    (out_geojson : option string) :
  cwd w1 = cwd w2 → fs w1 = fs w2 →
  fst (shp_to_geojson in_shp out_geojson w1) =
  fst (shp_to_geojson in_shp out_geojson w2) ∧
  fs (snd (shp_to_geojson in_shp out_geojson w1)) =
  fs (snd (shp_to_geojson in_shp out_geojson w2)).
Proof.
  intros Hc Hf. unfold shp_to_geojson. unfold_actions.
  simpl. rewrite Hc, Hf.
  destruct (bool_decide _); simpl; [|done].
  rewrite ?Hf.
  destruct (shapefile_Reader _ _) as [e|sf]; simpl; [done|].
  rewrite ?Hf.
  destruct (geo_interface _ sf) as [e|g]; simpl; [done|].
  destruct out_geojson as [out|]; simpl; [|done].
  rewrite ?Hc, ?Hf.
  destruct (makedirs _ _) as [e|fs1]; simpl; [done|].
  by destruct (open_w _ fs1).
Qed.

Lemma shp_to_geojson_plain_frame (w : World) (in_shp : string) :
  cwd (snd (shp_to_geojson in_shp None w)) = cwd w ∧
  fs (snd (shp_to_geojson in_shp None w)) = fs w.
Proof.
  unfold shp_to_geojson. unfold_actions.
  destruct (bool_decide _); simpl; [|done].
  destruct (shapefile_Reader _ _) as [e|sf]; simpl; [done|].
  by destruct (geo_interface _ sf).
Qed.

(** Whatever happens, the file system stays well formed. *)
Lemma shp_to_geojson_keeps_wf (w : World) (in_shp : string)
    (out_geojson : option string) :
  fs_wf (fs w) → fs_wf (fs (snd (shp_to_geojson in_shp out_geojson w))).
Proof.
  intros Hwf. unfold shp_to_geojson. unfold_actions.
  destruct (bool_decide _); simpl; [|done].
  destruct (shapefile_Reader _ _) as [e|sf]; simpl; [done|].
  destruct (geo_interface _ sf) as [e|g]; simpl; [done|].
  destruct out_geojson as [out|]; simpl; [|done].
  destruct (makedirs _ _) as [e|fs1] eqn:Hm; simpl; [done|].
  assert (fs_wf fs1) as Hwf1.
  { by apply (makedirs_from_wf (dirname (abspath (cwd w) out)) [] (fs w)
                fs1 Hwf). }
  destruct (open_w _ fs1) as [e|fs2] eqn:Ho; simpl; [done|].
  apply open_w_inr in Ho as (Hne & Hparent & Hnd & ->).
  unfold append_file. rewrite lookup_insert_eq.
  set (p := abspath (cwd w) out) in *.
  apply insert_wf; [by apply insert_wf|done| |].
  - rewrite is_dir_insert_other; [done|by apply dirname_ne].
  - by rewrite lookup_insert_eq.
Qed.


(** C2. When the absolute input path names nothing, [shp_to_geojson] raises
    [FileNotFoundError] and leaves the whole world as it was: no file is
    created or changed and the reader has not been called, whether or not
    an output path was given. *)
Theorem shp_to_geojson_not_found (w : World) (in_shp : string)
    (out_geojson : option string) :
  lookup_path (fs w) (abspath (cwd w) in_shp) = None →
  shp_to_geojson in_shp out_geojson w =
    (Raise (FileNotFoundError "The provided shapefile could not be found."), w)
  ∧ fs (snd (shp_to_geojson in_shp out_geojson w)) = fs w
  ∧ trace (snd (shp_to_geojson in_shp out_geojson w)) = trace w.
Proof.
  intros H. rewrite (shp_to_geojson_missing w in_shp out_geojson H). done.
Qed.

(** C4. [shp_to_geojson] is deterministic.  Two calls with the same
    arguments in worlds with the same working directory and file system have
    the same outcome and leave the same file system; the collection
    returned does not even depend on the output argument, and equal
    collections have the same JSON text; a call repeated right after a call
    without output path has the same outcome. *)
Theorem shp_to_geojson_deterministic (in_shp : string) :
  (∀ (out_geojson : option string) (w1 w2 : World),
     cwd w1 = cwd w2 → fs w1 = fs w2 →
     fst (shp_to_geojson in_shp out_geojson w1) =
     fst (shp_to_geojson in_shp out_geojson w2) ∧
     fs (snd (shp_to_geojson in_shp out_geojson w1)) =
     fs (snd (shp_to_geojson in_shp out_geojson w2))) ∧
  (∀ (out1 out2 : option string) (w1 w2 : World) (g1 g2 : pyval),
     cwd w1 = cwd w2 → fs w1 = fs w2 →
     fst (shp_to_geojson in_shp out1 w1) = Ok g1 →
     fst (shp_to_geojson in_shp out2 w2) = Ok g2 →
     g1 = g2 ∧ json_dumps g1 = json_dumps g2) ∧
  (∀ w : World,
     fst (shp_to_geojson in_shp None (snd (shp_to_geojson in_shp None w))) =
     fst (shp_to_geojson in_shp None w)).
Proof.
  split; [|split].
  - intros. by apply shp_to_geojson_outcome.
  - intros out1 out2 w1 w2 g1 g2 Hc Hf H1 H2.
    apply shp_to_geojson_value in H1 as (sf1 & Hr1 & Hg1).
    apply shp_to_geojson_value in H2 as (sf2 & Hr2 & Hg2).
    rewrite Hc, Hf in Hr1. rewrite Hf in Hg1.
    assert (sf1 = sf2) as -> by congruence.
    assert (g1 = g2) as -> by congruence. done.
  - intros w. destruct (shp_to_geojson_plain_frame w in_shp) as [Hc Hf].
    by apply shp_to_geojson_outcome.
Qed.

(** C5. With an output path that can be written, [shp_to_geojson] first
    makes the directories above it ([makedirs] on the file system of the
    call) and then puts the JSON text of the collection at the path,
    whatever was there: all directories above the path exist, the file holds
    exactly the text, and nothing else differs but the directories that had
    to be made; and a second call with the same output path leaves only the
    text of the second collection. *)
Theorem shp_to_geojson_overwrites (w : World) (in_shp out : string)
    (sf : shp_reader) (g : pyval) :
  is_Some (lookup_path (fs w) (abspath (cwd w) in_shp)) →
  shapefile_Reader (fs w) (abspath (cwd w) in_shp) = inr sf →
  geo_interface (fs w) sf = inr g →
  writable (fs w) (abspath (cwd w) out) = true →
  ∃ w1 fs1,
    shp_to_geojson in_shp (Some out) w = (Ok g, w1) ∧
    cwd w1 = cwd w ∧
    makedirs (dirname (abspath (cwd w) out)) (fs w) = inr fs1 ∧
    fs w1 = <[abspath (cwd w) out := File (json_dumps g)]> fs1 ∧
    (∀ k, k < length (abspath (cwd w) out) →
          is_dir (fs w1) (take k (abspath (cwd w) out)) = true) ∧
    lookup_path (fs w1) (abspath (cwd w) out) = Some (File (json_dumps g)) ∧
    (∀ q, q = abspath (cwd w) out ∨ fs w1 !! q = fs w !! q ∨
          (fs w !! q = None ∧ fs w1 !! q = Some Dir ∧
           ∃ k, 0 < k < length (abspath (cwd w) out) ∧
                q = take k (abspath (cwd w) out))) ∧
    (∀ (in_shp2 : string) (sf2 : shp_reader) (g2 : pyval),
       is_Some (lookup_path (fs w1) (abspath (cwd w1) in_shp2)) →
       shapefile_Reader (fs w1) (abspath (cwd w1) in_shp2) = inr sf2 →
       geo_interface (fs w1) sf2 = inr g2 →
       ∃ w2, shp_to_geojson in_shp2 (Some out) w1 = (Ok g2, w2) ∧
             lookup_path (fs w2) (abspath (cwd w2) out) =
               Some (File (json_dumps g2))).
Proof.
  intros He Hr Hg Hw.
  destruct (shp_to_geojson_written w in_shp out sf g He Hr Hg Hw)
    as (fs1 & Hm & Hrun).
  set (p := abspath (cwd w) out) in *.
  destruct (written_file _ _ _ (json_dumps g) Hw Hm) as (_ & _ & Hdirs).
  assert (p ≠ []) as Hne by (by destruct p).
  assert (lookup_path (<[p := File (json_dumps g)]> fs1) p =
          Some (File (json_dumps g))) as Hlook.
  { rewrite lookup_path_plain; [|apply abspath_plain|exact Hdirs].
    unfold node_at. destruct p; [done|]. by rewrite lookup_insert_eq. }
  set (w1 := set_fs (<[p := File (json_dumps g)]> fs1)
              (log EvGeoInterface (log (EvReader (abspath (cwd w) in_shp)) w)))
    in *.
  exists w1, fs1. split; [exact Hrun|]. simpl.
  split; [done|]. split; [exact Hm|]. split; [done|].
  split; [exact Hdirs|]. split; [exact Hlook|]. split.
  - intros q. destruct (decide (q = p)) as [->|Hq]; [by left|right].
    rewrite lookup_insert_ne by done.
    destruct (makedirs_from_changes _ _ _ _ Hm q)
      as [Hsame|(Hn & Hd & k & Hk & Heq)]; [by left|right].
    cbn [app] in Heq. rewrite length_dirname in Hk.
    rewrite take_dirname in Heq by lia.
    split; [exact Hn|]. split; [exact Hd|]. exists k. split; [lia|done].
  - intros in_shp2 sf2 g2 He2 Hr2 Hg2. fold p in He2, Hr2.
    assert (writable (<[p := File (json_dumps g)]> fs1) p = true) as Hw2.
    { apply (writable_again _ _ (json_dumps g)); [done|exact Hdirs|].
      by rewrite lookup_insert_eq. }
    destruct (shp_to_geojson_written w1 in_shp2 out sf2 g2 He2 Hr2 Hg2 Hw2)
      as (fs2 & Hm2 & Hrun2).
    eexists. split; [exact Hrun2|]. simpl. fold p. fold p in Hm2.
    destruct (written_file _ _ _ (json_dumps g2) Hw2 Hm2) as (_ & _ & Hdirs2).
    rewrite lookup_path_plain; [|apply abspath_plain|exact Hdirs2].
    unfold node_at. destruct p; [done|]. by rewrite lookup_insert_eq.
Qed.

End Conversion.

(** ** [add_geojson] *)

Section Layers.
Context `{C : Collaborators}.

(** A call that returns has put exactly one layer on the map, and this is
    the layer. *)
Lemma add_geojson_layer (in_geojson : pyval) (style : option pyval)
    (layer_name : option string) (w w' : World) :
  add_geojson in_geojson style layer_name w = (Ok tt, w') →
  ∃ data,
    layers w' = layers w ++
      [VectorLayer
         {| gj_data := data;
            gj_style := match default PNone style with
                        | PNone => default_style
                        | _ => default PNone style
                        end;
            gj_name :=
              if bool_decide (default "Untitled" layer_name = "Untitled")
              then "Untitled_" +:+ fst (random_string (rng w))
              else default "Untitled" layer_name |}].
Proof.
  unfold add_geojson. unfold_actions.
  destruct (bool_decide (default "Untitled" layer_name = "Untitled"));
    destruct (random_string (rng w)) as [suffix r]; simpl;
    destruct in_geojson as [| | | |file| |kvs|items]; simpl; try done;
    try (intros [= <-]; eexists; reflexivity).
  all: destruct (bool_decide (is_Some _)); simpl; [|done].
  all: destruct (lookup_raw _ _ file) as [[text|]|]; simpl; try done.
  all: destruct (json_loads text) as [e|data]; simpl; [done|].
  all: destruct (isinstance_dict data); simpl; [|done].
  all: intros [= <-]; eexists; reflexivity.
Qed.

(** Data given as a dictionary always gets its layer. *)
Lemma add_geojson_dict (kvs : list (string * pyval)) (style : option pyval)
    (layer_name : option string) (w : World) :
  ∃ w', add_geojson (PDict kvs) style layer_name w = (Ok tt, w').
Proof.
  unfold add_geojson. unfold_actions.
  destruct (bool_decide _); [destruct (random_string _)|];
    simpl; eexists; reflexivity.
Qed.



(** C3. The layer [add_geojson] puts on the map carries the fixed default
    style when no style (or [None]) was given, and otherwise the given
    style itself, whole. *)
Theorem add_geojson_style (in_geojson : pyval) (style : option pyval)
    (layer_name : option string) (w w' : World) :
  add_geojson in_geojson style layer_name w = (Ok tt, w') →
  ∃ g,
    layers w' = layers w ++ [VectorLayer g] ∧
    (style = None ∨ style = Some PNone →
     gj_style g =
       PDict [ ("stroke", PBool true); ("color", PStr "#000000");
               ("weight", PInt 2); ("opacity", PInt 1);
               ("fill", PBool true); ("fillColor", PStr "#0000ff");
               ("fillOpacity", PFloat (4 # 10)) ]) ∧
    (∀ given, style = Some given → given ≠ PNone → gj_style g = given).
Proof.
  intros H. destruct (add_geojson_layer _ _ _ _ _ H) as [data Hl].
  eexists. split; [exact Hl|]. simpl. split.
  - by intros [-> | ->].
  - intros given -> Hg. simpl. by destruct given.
Qed.

(** C8. The layer is registered under [Untitled_] followed by the string
    [random_string] returned when the name is the sentinel [Untitled]
    (given or left out), and under the given name otherwise. *)
Theorem add_geojson_layer_name (in_geojson : pyval) (style : option pyval)
    (layer_name : option string) (w w' : World) :
  add_geojson in_geojson style layer_name w = (Ok tt, w') →
  ∃ g,
    layers w' = layers w ++ [VectorLayer g] ∧
    (layer_name = None ∨ layer_name = Some "Untitled" →
     gj_name g = "Untitled" +:+ "_" +:+ fst (random_string (rng w))) ∧
    (∀ name, layer_name = Some name → name ≠ "Untitled" → gj_name g = name).
Proof.
  intros H. destruct (add_geojson_layer _ _ _ _ _ H) as [data Hl].
  eexists. split; [exact Hl|]. simpl. split.
  - by intros [-> | ->].
  - intros name -> Hn. simpl. by rewrite bool_decide_eq_false_2.
Qed.

(** C7. [add_geojson] raises its [TypeError] exactly when the data is
    neither a string nor a dictionary, and [shp_to_geojson] never raises
    a [TypeError]. *)
Theorem add_geojson_invalid_input (in_geojson : pyval) (style : option pyval)
    (layer_name : option string) (w : World) :
  ((∃ msg, fst (add_geojson in_geojson style layer_name w)
           = Raise (TypeError msg)) ↔
   isinstance_str in_geojson = false ∧ isinstance_dict in_geojson = false) ∧
  (isinstance_str in_geojson = false ∧ isinstance_dict in_geojson = false →
   fst (add_geojson in_geojson style layer_name w)
   = Raise (TypeError "GeoJSON must be a file path or dict.")) ∧
  (∀ (in_shp : string) (out_geojson : option string) (w0 : World) msg,
     fst (shp_to_geojson in_shp out_geojson w0) ≠ Raise (TypeError msg)).
Proof.
  assert (isinstance_str in_geojson = false ∧
          isinstance_dict in_geojson = false →
          fst (add_geojson in_geojson style layer_name w)
          = Raise (TypeError "GeoJSON must be a file path or dict."))
    as Hraise.
  { intros [Hs Hd].
    unfold add_geojson. unfold_actions.
    destruct (bool_decide _); [destruct (random_string _)|]; simpl;
      by destruct in_geojson. }
  split; [split|split; [exact Hraise|]].
  - intros [msg H]. revert H.
    unfold add_geojson. unfold_actions.
    destruct (bool_decide (default "Untitled" layer_name = "Untitled"));
      destruct (random_string (rng w)) as [suffix r]; simpl;
      destruct in_geojson as [| | | |file| |kvs|items]; simpl; try done.
    all: destruct (bool_decide (is_Some _)); simpl; [|done].
    all: destruct (lookup_raw _ _ file) as [[text|]|]; simpl; try done.
    all: destruct (json_loads text) as [e|data]; simpl; [done|].
    all: by destruct (isinstance_dict data).
  - intros H. eexists. by apply Hraise.
  - intros in_shp out_geojson w0 msg.
    unfold shp_to_geojson. unfold_actions.
    destruct (bool_decide _); simpl; [|done].
    destruct (shapefile_Reader _ _) as [e|sf]; simpl; [done|].
    destruct (geo_interface _ sf) as [e|g]; simpl; [done|].
    destruct out_geojson as [out|]; simpl; [|done].
    destruct (makedirs _ _); simpl; [done|].
    by destruct (open_w _ _).
Qed.

End Layers.

(** ** [ee_tile_layer] and [add_ee_layer] *)

Section EarthEngine.
Context `{C : Collaborators}.

(** An object that is not recognised stops the call at the guard. *)
Lemma ee_tile_layer_rejects (o : pyobj) (vis_params : option loc)
    (name shown opacity : option pyval) (w : World) :
  recognized o = false →
  ee_tile_layer o vis_params name shown opacity w =
    (Raise (AttributeError
       "ee_object must be an Earth Engine Image, Feature, or Collection."),
     w).
Proof.
  intros H. unfold ee_tile_layer, raise.
  destruct o as [[] h|v]; simpl in H; try done.
Qed.

(** The whole run on a recognised object.  A Geometry passes the guard
    and fails where [getMapId] is looked up on it.  For the other classes a
    collection is replaced by its mosaic, [getMapId] is called once on the
    result with the reference to [vis_params], and its answer is passed on
    when it is an error and handed to [TileLayer] otherwise. *)
Lemma ee_tile_layer_run (c : ee_class) (h : ee_handle)
    (vis_params : option loc) (name shown opacity : option pyval)
    (w : World) :
  recognized (EE c h) = true →
  let l := default ee_tile_layer_vis_default vis_params in
  let c' := if decide (c = ImageCollection) then Image else c in
  let h' := if decide (c = ImageCollection) then mosaic h else h in
  let w0 := if decide (c = ImageCollection) then log (EvMosaic h) w else w in
  let accepted :=
    isinstance_str (default (PStr "Layer untitled") name)
    && opacity_accepted (default (PFloat 1) opacity)
    && visible_accepted (default (PBool true) shown) in
  ee_tile_layer (EE c h) vis_params name shown opacity w =
    if decide (c = Geometry) then
      (Raise (AttributeError "'Geometry' object has no attribute 'getMapId'"),
       log (EvGetMapId Geometry h l (heap w !! l)) w)
    else
      (match fst (fst (getMapId c' h' l (heap w) (service w))) with
       | inl e => Raise (Propagated e)
       | inr map_id =>
           if accepted then
             Ok {| tl_url := url_format (tile_fetcher map_id);
                   tl_name := default (PStr "Layer untitled") name;
                   tl_opacity := default (PFloat 1) opacity;
                   tl_visible := default (PBool true) shown;
                   tl_attribution := "Google Earth Engine" |}
           else Raise TraitError
       end,
       set_service (snd (getMapId c' h' l (heap w) (service w)))
         (set_heap (snd (fst (getMapId c' h' l (heap w) (service w))))
            (log (EvGetMapId c' h' l (heap w !! l)) w0))).
Proof.
  intros H. destruct c; simpl in H; try done; simpl;
    unfold ee_tile_layer, bind, ret, raise, call_mosaic, call_getMapId,
      new_TileLayer; simpl; try reflexivity;
    match goal with
    | |- context [getMapId ?a ?b ?d ?e ?f] =>
        destruct (getMapId a b d e f) as [[[e0|map_id] hp] sv]
    end; simpl; try reflexivity;
    match goal with
    | |- context [if ?b then _ else _] => destruct b
    end; reflexivity.
Qed.

(** The heap after a call is the heap before it or the one [getMapId]
    handed back: the method itself writes nothing. *)
Lemma ee_tile_layer_heap (o : pyobj) (vis_params : option loc)
    (name shown opacity : option pyval) (w : World) :
  heap (snd (ee_tile_layer o vis_params name shown opacity w)) = heap w ∨
  ∃ c h, heap (snd (ee_tile_layer o vis_params name shown opacity w)) =
         snd (fst (getMapId c h
                     (default ee_tile_layer_vis_default vis_params)
                     (heap w) (service w))).
Proof.
  destruct (recognized o) eqn:Hr.
  - destruct o as [c h|v]; [|done].
    rewrite (ee_tile_layer_run c h vis_params name shown opacity w Hr).
    destruct (decide (c = Geometry)); [by left|right].
    simpl. eexists _, _. reflexivity.
  - left. by rewrite ee_tile_layer_rejects.
Qed.

Lemma ee_tile_layer_heap_kept (o : pyobj) (vis_params : option loc)
    (name shown opacity : option pyval) (w : World) :
  getMapId_reads_only →
  heap (snd (ee_tile_layer o vis_params name shown opacity w)) = heap w.
Proof.
  intros Hro.
  destruct (ee_tile_layer_heap o vis_params name shown opacity w)
    as [H|(c & h & H)]; [exact H|].
  rewrite H. apply Hro.
Qed.

Lemma add_ee_layer_heap_kept (o : pyobj) (vis_params : option loc)
    (name shown opacity : option pyval) (w : World) :
  getMapId_reads_only →
  heap (snd (add_ee_layer o vis_params name shown opacity w)) = heap w.
Proof.
  intros Hro. unfold add_ee_layer, bind, add_layer.
  match goal with
  | |- context [ee_tile_layer ?a ?b ?c ?d ?e w] =>
      pose proof (ee_tile_layer_heap_kept a b c d e w Hro) as H;
      destruct (ee_tile_layer a b c d e w) as [[t|e0] w1]
  end; exact H.
Qed.

Lemma run_calls_heap_kept (cs : list ee_call) (w : World) :
  getMapId_reads_only → heap (run_calls cs w) = heap w.
Proof.
  intros Hro. revert w. unfold run_calls.
  induction cs as [|c cs IH]; intros w; simpl; [done|].
  rewrite IH. destruct c; simpl.
  - by apply add_ee_layer_heap_kept.
  - by apply ee_tile_layer_heap_kept.
Qed.

(** The events a call of [ee_tile_layer] on a recognised object adds. *)
Lemma ee_tile_layer_trace (c : ee_class) (h : ee_handle)
    (vis_params : option loc) (name shown opacity : option pyval)
    (w : World) :
  recognized (EE c h) = true →
  let l := default ee_tile_layer_vis_default vis_params in
  trace (snd (ee_tile_layer (EE c h) vis_params name shown opacity w)) =
    trace w ++
    (if decide (c = ImageCollection)
     then [EvMosaic h; EvGetMapId Image (mosaic h) l (heap w !! l)]
     else [EvGetMapId c h l (heap w !! l)]).
Proof.
  intros H l.
  rewrite (ee_tile_layer_run c h vis_params name shown opacity w H).
  destruct (decide (c = Geometry)) as [->|Hg]; [done|].
  simpl. destruct (decide (c = ImageCollection)); simpl; [|done].
  by rewrite <- app_assoc.
Qed.

Lemma add_ee_layer_trace (c : ee_class) (h : ee_handle)
    (vis_params : option loc) (name shown opacity : option pyval)
    (w : World) :
  recognized (EE c h) = true →
  let l := default add_ee_layer_vis_default vis_params in
  trace (snd (add_ee_layer (EE c h) vis_params name shown opacity w)) =
    trace w ++
    (if decide (c = ImageCollection)
     then [EvMosaic h; EvGetMapId Image (mosaic h) l (heap w !! l)]
     else [EvGetMapId c h l (heap w !! l)]).
Proof.
  intros H l. unfold add_ee_layer, bind, add_layer.
  match goal with
  | |- context [ee_tile_layer ?o ?v ?n ?s ?p w] =>
      pose proof (ee_tile_layer_trace c h v n s p w H) as Ht;
      destruct (ee_tile_layer o v n s p w) as [[t|e0] w1]
  end; exact Ht.
Qed.

(** C6, as amended.  [ee_tile_layer] raises the [AttributeError] of its
    guard exactly for the objects that are not an Image, ImageCollection,
    Feature, FeatureCollection or Geometry, and then the world is
    untouched.  For an Image, ImageCollection, Feature or FeatureCollection
    the outcome follows the service and the widget: the tile layer with the
    URL template of the answer and the attribution [Google Earth Engine]
    when the service answers and [TileLayer] takes name, opacity and
    visibility; the error of the widget when it does not take them; the
    error of the service, passed on, when the service fails. *)
Theorem ee_tile_layer_unsupported_type (o : pyobj) (vis_params : option loc)
    (name shown opacity : option pyval) (w : World) :
  (fst (ee_tile_layer o vis_params name shown opacity w)
   = Raise (AttributeError
       "ee_object must be an Earth Engine Image, Feature, or Collection.")
   ↔ recognized o = false) ∧
  (recognized o = false →
   ee_tile_layer o vis_params name shown opacity w =
     (Raise (AttributeError
        "ee_object must be an Earth Engine Image, Feature, or Collection."),
      w)) ∧
  (∀ c h, o = EE c h →
     c ∈ [Image; ImageCollection; Feature; FeatureCollection] →
     let l := default ee_tile_layer_vis_default vis_params in
     let answer :=
       fst (fst (if decide (c = ImageCollection)
                 then getMapId Image (mosaic h) l (heap w) (service w)
                 else getMapId c h l (heap w) (service w))) in
     let accepted :=
       isinstance_str (default (PStr "Layer untitled") name)
       && opacity_accepted (default (PFloat 1) opacity)
       && visible_accepted (default (PBool true) shown) in
     (∀ map_id, answer = inr map_id → accepted = true →
        ∃ t, fst (ee_tile_layer o vis_params name shown opacity w) = Ok t ∧
             tl_url t = url_format (tile_fetcher map_id) ∧
             tl_attribution t = "Google Earth Engine" ∧
             tl_name t = default (PStr "Layer untitled") name ∧
             tl_opacity t = default (PFloat 1) opacity ∧
             tl_visible t = default (PBool true) shown) ∧
     (∀ map_id, answer = inr map_id → accepted = false →
        fst (ee_tile_layer o vis_params name shown opacity w)
        = Raise TraitError) ∧
     (∀ e, answer = inl e →
        fst (ee_tile_layer o vis_params name shown opacity w)
        = Raise (Propagated e))).
Proof.
  split; [split|split].
  - intros H. destruct (recognized o) eqn:Hr; [|done].
    destruct o as [c h|v]; [|done].
    rewrite (ee_tile_layer_run c h vis_params name shown opacity w Hr) in H.
    destruct (decide (c = Geometry)); [done|]. simpl in H.
    destruct (fst (fst _)); [done|].
    by match type of H with
       | context [if ?b then _ else _] => destruct b
       end.
  - intros Hr. by rewrite ee_tile_layer_rejects.
  - apply ee_tile_layer_rejects.
  - intros c h -> Hc l answer accepted.
    assert (recognized (EE c h) = true ∧ c ≠ Geometry) as [Hr Hg].
    { rewrite !elem_of_cons in Hc.
      destruct Hc as [->|[->|[->|[->|Hc]]]]; try done.
      by apply elem_of_nil in Hc. }
    rewrite (ee_tile_layer_run c h vis_params name shown opacity w Hr).
    destruct (decide (c = Geometry)); [done|].
    subst answer l. simpl. fold accepted.
    destruct (decide (c = ImageCollection)) as [Hi|Hi]; repeat split.
    1,4: intros map_id -> ->; by eexists.
    1,3: by intros map_id -> ->.
    all: by intros e ->.
Qed.


(** C9. With a [getMapId] that leaves the heap alone, no call of
    [ee_tile_layer] or [add_ee_layer] changes any dictionary, the default
    ones included; so after any run of such calls, what [getMapId] sees
    behind the [vis_params] of the next call is what was there before the
    run: for an omitted argument, the default of the method as it was. *)
Theorem vis_params_never_mutated :
  getMapId_reads_only →
  (∀ o vis_params name shown opacity w,
     heap (snd (ee_tile_layer o vis_params name shown opacity w)) = heap w ∧
     heap (snd (add_ee_layer o vis_params name shown opacity w)) = heap w) ∧
  (∀ cs w, heap (run_calls cs w) = heap w) ∧
  (∀ cs w c h vis_params name shown opacity,
     recognized (EE c h) = true →
     let w1 := run_calls cs w in
     let passed := if decide (c = ImageCollection)
                   then [EvMosaic h] else [] in
     (let l := default ee_tile_layer_vis_default vis_params in
      ∃ c' h',
        trace (snd (ee_tile_layer (EE c h) vis_params name shown opacity w1))
        = trace w1 ++ passed ++ [EvGetMapId c' h' l (heap w !! l)]) ∧
     (let l := default add_ee_layer_vis_default vis_params in
      ∃ c' h',
        trace (snd (add_ee_layer (EE c h) vis_params name shown opacity w1))
        = trace w1 ++ passed ++ [EvGetMapId c' h' l (heap w !! l)])).
Proof.
  intros Hro. split; [|split].
  - intros. split.
    + by apply ee_tile_layer_heap_kept.
    + by apply add_ee_layer_heap_kept.
  - intros. by apply run_calls_heap_kept.
  - intros cs w c h vis_params name shown opacity Hr w1 passed.
    split; intros l.
    + rewrite ee_tile_layer_trace by done. fold l.
      subst w1 passed. rewrite run_calls_heap_kept by done.
      destruct (decide (c = ImageCollection)); eexists _, _; reflexivity.
    + rewrite add_ee_layer_trace by done. fold l.
      subst w1 passed. rewrite run_calls_heap_kept by done.
      destruct (decide (c = ImageCollection)); eexists _, _; reflexivity.
Qed.

End EarthEngine.

(** * Further properties of the code *)

(** ** More on [os.makedirs] and [open] *)

(** What a successful [makedirs] of the parent of [p] can have changed. *)
Lemma makedirs_footprint (fs fs1 : FS) (p : path) :
  makedirs (dirname p) fs = inr fs1 →
  ∀ q, fs1 !! q = fs !! q ∨
       (fs !! q = None ∧ fs1 !! q = Some Dir ∧
        ∃ k, 0 < k < length p ∧ q = take k p).
Proof.
  intros Hm q.
  destruct (makedirs_from_changes _ _ _ _ Hm q)
    as [Hsame|(Hn & Hd & k & Hk & Heq)]; [by left|right].
  cbn [app] in Heq. rewrite length_dirname in Hk.
  rewrite take_dirname in Heq by lia.
  split; [exact Hn|]. split; [exact Hd|]. exists k. split; [lia|done].
Qed.

(** Where all the directories are there already, [makedirs] does nothing. *)
Lemma makedirs_from_noop (rest : list string) (pre : path) (fs : FS) :
  (∀ k, 0 < k ≤ length rest → fs !! (pre ++ take k rest) = Some Dir) →
  makedirs_from pre rest fs = inr fs.
Proof.
  revert pre. induction rest as [|c rest IH]; intros pre H; simpl; [done|].
  pose proof (H 1 ltac:(simpl; lia)) as H1. simpl in H1.
  rewrite take_0 in H1. rewrite H1. apply IH. intros k Hk.
  rewrite <- app_assoc. apply (H (S k)). simpl. lia.
Qed.

(** [makedirs] fails with [EEXIST] or [ENOTDIR] only. *)
Lemma makedirs_from_inl (rest : list string) (pre : path) (fs : FS)
    (e : errno) :
  makedirs_from pre rest fs = inl e → e = EEXIST ∨ e = ENOTDIR.
Proof.
  revert pre fs. induction rest as [|c rest IH]; intros pre fs H;
    simpl in H; [done|].
  destruct (fs !! (pre ++ [c])) as [[content|]|]; [|by eapply IH..].
  injection H as <-. destruct rest; [by left|by right].
Qed.

(** After [makedirs] of the parent, the parent is a directory. *)
Lemma makedirs_parent (fs fs1 : FS) (p : path) :
  makedirs (dirname p) fs = inr fs1 → is_dir fs1 (dirname p) = true.
Proof.
  intros Hm. unfold makedirs in Hm.
  destruct (dirname p) as [|c d] eqn:E; [done|].
  pose proof (makedirs_from_dirs _ _ _ _ Hm (length (c :: d))
                ltac:(simpl; lia)) as Hd.
  rewrite firstn_all in Hd. cbn [app] in Hd.
  unfold is_dir, node_at. by rewrite Hd.
Qed.




(** ** More on [shp_to_geojson] *)

Section ConversionMore.
Context `{C : Collaborators}.

(** X1. An error of the shapefile reader, raised when the reader is built
    or when the collection is asked for, comes out of [shp_to_geojson] as
    it is, and nothing has been done for the output by then: with or
    without an output path the file system and the layers are as before. *)
Theorem shp_to_geojson_reader_error (w : World) (in_shp : string)
    (out_geojson : option string) (e : foreign) :
  is_Some (lookup_path (fs w) (abspath (cwd w) in_shp)) →
  (shapefile_Reader (fs w) (abspath (cwd w) in_shp) = inl e ∨
   ∃ sf, shapefile_Reader (fs w) (abspath (cwd w) in_shp) = inr sf ∧
         geo_interface (fs w) sf = inl e) →
  fst (shp_to_geojson in_shp out_geojson w) = Raise (Propagated e) ∧
  fs (snd (shp_to_geojson in_shp out_geojson w)) = fs w ∧
  layers (snd (shp_to_geojson in_shp out_geojson w)) = layers w.
Proof.
  intros He Hr. unfold shp_to_geojson. unfold_actions.
  rewrite bool_decide_eq_true_2 by exact He. simpl.
  destruct Hr as [Hr|(sf & Hr & Hg)]; rewrite Hr; simpl; [done|].
  by rewrite Hg.
Qed.

(** X2. [shp_to_geojson] touches nothing but the file system, and there, in
    every outcome, at most the output file and the directories above it
    that were missing: without an output path the file system is as before;
    with one, every other entry is as before. *)
Theorem shp_to_geojson_footprint (w : World) (in_shp : string)
    (out_geojson : option string) :
  let w' := snd (shp_to_geojson in_shp out_geojson w) in
  cwd w' = cwd w ∧ heap w' = heap w ∧ layers w' = layers w ∧
  rng w' = rng w ∧ service w' = service w ∧
  match out_geojson with
  | None => fs w' = fs w
  | Some out =>
      ∀ q, q = abspath (cwd w) out ∨ fs w' !! q = fs w !! q ∨
           (fs w !! q = None ∧ fs w' !! q = Some Dir ∧
            ∃ k, 0 < k < length (abspath (cwd w) out) ∧
                 q = take k (abspath (cwd w) out))
  end.
Proof.
  unfold shp_to_geojson. unfold_actions.
  destruct (bool_decide _); simpl.
  2: { repeat (split; [done|]). destruct out_geojson; [|done].
       intros q. right. by left. }
  destruct (shapefile_Reader _ _) as [e|sf]; simpl.
  { repeat (split; [done|]). destruct out_geojson; [|done].
    intros q. right. by left. }
  destruct (geo_interface _ sf) as [e|g]; simpl.
  { repeat (split; [done|]). destruct out_geojson; [|done].
    intros q. right. by left. }
  destruct out_geojson as [out|]; simpl; [|done].
  set (p := abspath (cwd w) out).
  destruct (makedirs (dirname p) (fs w)) as [e|fs1] eqn:Hm; simpl.
  { repeat (split; [done|]). intros q. right. by left. }
  destruct (open_w p fs1) as [e|fs2] eqn:Ho; simpl.
  { repeat (split; [done|]). intros q. right.
    exact (makedirs_footprint _ _ _ Hm q). }
  repeat (split; [done|]). intros q.
  destruct (decide (q = p)) as [->|Hq]; [by left|right].
  apply open_w_inr in Ho as (_ & _ & _ & ->).
  unfold append_file. rewrite lookup_insert_eq.
  rewrite !lookup_insert_ne by done.
  exact (makedirs_footprint _ _ _ Hm q).
Qed.

(** X3. Converting again with the same arguments, when the shapefile still
    reads as the same collection, returns it again and leaves the file
    system exactly as the first call left it. *)
Theorem shp_to_geojson_again (w : World) (in_shp out : string)
    (sf sf2 : shp_reader) (g : pyval) :
  is_Some (lookup_path (fs w) (abspath (cwd w) in_shp)) →
  shapefile_Reader (fs w) (abspath (cwd w) in_shp) = inr sf →
  geo_interface (fs w) sf = inr g →
  writable (fs w) (abspath (cwd w) out) = true →
  let w1 := snd (shp_to_geojson in_shp (Some out) w) in
  is_Some (lookup_path (fs w1) (abspath (cwd w) in_shp)) →
  shapefile_Reader (fs w1) (abspath (cwd w) in_shp) = inr sf2 →
  geo_interface (fs w1) sf2 = inr g →
  fst (shp_to_geojson in_shp (Some out) w1) = Ok g ∧
  fs (snd (shp_to_geojson in_shp (Some out) w1)) = fs w1.
Proof.
  intros He Hr Hg Hw w1.
  destruct (shp_to_geojson_written w in_shp out sf g He Hr Hg Hw)
    as (fs1 & Hm & Hrun).
  subst w1. rewrite Hrun. simpl.
  set (p := abspath (cwd w) out) in *.
  set (w1 := set_fs (<[p := File (json_dumps g)]> fs1)
               (log EvGeoInterface
                  (log (EvReader (abspath (cwd w) in_shp)) w))).
  intros He2 Hr2 Hg2.
  destruct (written_file _ _ _ (json_dumps g) Hw Hm) as (_ & _ & Hdirs).
  assert (p ≠ []) as Hne by (by destruct p).
  assert (writable (fs w1) p = true) as Hw2.
  { apply (writable_again _ _ (json_dumps g)); [done|exact Hdirs|].
    simpl. by rewrite lookup_insert_eq. }
  destruct (shp_to_geojson_written w1 in_shp out sf2 g He2 Hr2 Hg2 Hw2)
    as (fs2 & Hm2 & Hrun2).
  rewrite Hrun2. simpl. split; [done|].
  assert (fs2 = <[p := File (json_dumps g)]> fs1) as ->.
  { change (cwd w1) with (cwd w) in Hm2. fold p in Hm2.
    unfold makedirs in Hm2. rewrite makedirs_from_noop in Hm2.
    - by injection Hm2 as <-.
    - intros k Hk. cbn [app]. rewrite length_dirname in Hk.
      rewrite take_dirname by lia.
      apply is_dir_lookup; [|apply Hdirs; lia].
      destruct p; [done|]. by destruct k; [lia|]. }
  by rewrite insert_insert_eq.
Qed.

(** X4. With a good input and an output path that cannot be written (the
    root, a directory, or a path through a regular file) the call raises
    the error of [makedirs] or [open] instead of returning the collection
    it has read; this error is never [ENOENT], since the parent directory
    has been made before [open]. *)
Theorem shp_to_geojson_output_refused (w : World) (in_shp out : string)
    (sf : shp_reader) (g : pyval) :
  is_Some (lookup_path (fs w) (abspath (cwd w) in_shp)) →
  shapefile_Reader (fs w) (abspath (cwd w) in_shp) = inr sf →
  geo_interface (fs w) sf = inr g →
  writable (fs w) (abspath (cwd w) out) = false →
  ∃ e, fst (shp_to_geojson in_shp (Some out) w) = Raise (OSError e) ∧
       e ≠ ENOENT.
Proof.
  intros He Hr Hg Hw.
  unfold shp_to_geojson. unfold_actions.
  rewrite bool_decide_eq_true_2 by exact He. simpl.
  rewrite Hr. simpl. rewrite Hg. simpl.
  set (p := abspath (cwd w) out) in *.
  destruct (makedirs (dirname p) (fs w)) as [e|fs1] eqn:Hm; simpl.
  { exists e. split; [done|].
    by destruct (makedirs_from_inl _ _ _ _ Hm) as [-> | ->]. }
  destruct (open_w p fs1) as [e|fs2] eqn:Ho; simpl.
  - exists e. split; [done|]. unfold open_w in Ho.
    rewrite (makedirs_parent _ _ _ Hm) in Ho. simpl in Ho.
    destruct p; [by injection Ho as <-|].
    destruct (fs1 !! (s :: p)) as [[content|]|]; [done| |done].
    by injection Ho as <-.
  - exfalso. assert (writable (fs w) p = true) as Hw'.
    { apply writable_iff. by eexists _, _. }
    congruence.
Qed.

End ConversionMore.

(** ** More on [add_geojson] and [add_shapefile] *)

Section LayersMore.
Context `{C : Collaborators}.


(** What a call of [shp_to_geojson] keeps, whatever its outcome. *)
Lemma shp_to_geojson_keeps (w : World) (in_shp : string)
    (out_geojson : option string) :
  layers (snd (shp_to_geojson in_shp out_geojson w)) = layers w ∧
  rng (snd (shp_to_geojson in_shp out_geojson w)) = rng w.
Proof.
  unfold shp_to_geojson. unfold_actions.
  destruct (bool_decide _); simpl; [|done].
  destruct (shapefile_Reader _ _) as [e|sf]; simpl; [done|].
  destruct (geo_interface _ sf) as [e|g]; simpl; [done|].
  destruct out_geojson as [out|]; simpl; [|done].
  destruct (makedirs _ _) as [e|fs1]; simpl; [done|].
  by destruct (open_w _ fs1).
Qed.

(** X5. [add_geojson] never touches the file system, the working directory
    or the dictionaries; a call that raises adds no layer; and the random
    string for an unnamed layer is drawn before the data is looked at, so
    the generator has moved on exactly when the name was the sentinel,
    also when the call raises. *)
Theorem add_geojson_effects (in_geojson : pyval) (style : option pyval)
    (layer_name : option string) (w : World) :
  let w' := snd (add_geojson in_geojson style layer_name w) in
  fs w' = fs w ∧ cwd w' = cwd w ∧ heap w' = heap w ∧
  rng w' = (if bool_decide (default "Untitled" layer_name = "Untitled")
            then snd (random_string (rng w)) else rng w) ∧
  (∀ e, fst (add_geojson in_geojson style layer_name w) = Raise e →
        layers w' = layers w).
Proof.
  unfold add_geojson. unfold_actions.
  destruct (bool_decide (default "Untitled" layer_name = "Untitled"));
    destruct (random_string (rng w)) as [suffix r]; simpl;
    destruct in_geojson as [| | | |file| |kvs|items]; simpl; try done.
  all: destruct (bool_decide (is_Some _)); simpl; [|done].
  all: destruct (lookup_raw _ _ file) as [[text|]|]; simpl; try done.
  all: destruct (json_loads text) as [e|data]; simpl; [done|].
  all: by destruct (isinstance_dict data).
Qed.




(** X9. When the conversion fails, [add_shapefile] fails with the same
    error before anything else is done: no layer is added, no random
    string is drawn and the file system is as before. *)
Theorem add_shapefile_conversion_error (w : World) (in_shp : string)
    (style : option pyval) (layer_name : option string) (e : exn) :
  fst (shp_to_geojson in_shp None w) = Raise e →
  fst (add_shapefile in_shp style layer_name w) = Raise e ∧
  layers (snd (add_shapefile in_shp style layer_name w)) = layers w ∧
  rng (snd (add_shapefile in_shp style layer_name w)) = rng w ∧
  fs (snd (add_shapefile in_shp style layer_name w)) = fs w.
Proof.
  intros H. unfold add_shapefile, bind.
  destruct (shp_to_geojson_keeps w in_shp None) as [Hl Hn].
  destruct (shp_to_geojson_plain_frame w in_shp) as [_ Hf].
  destruct (shp_to_geojson in_shp None w) as [[g|e'] w1]; simpl in *;
    [done|].
  by injection H as ->.
Qed.


End LayersMore.

(** ** More on [add_ee_layer] and [ee_tile_layer] *)

Section EarthEngineMore.
Context `{C : Collaborators}.

(** X10. For an Image, ImageCollection, Feature or FeatureCollection the
    service answers for, and an opacity and a visibility the widget takes:
    [add_ee_layer] called with a string as name puts exactly one layer at
    the end of the layers of the map, the tile layer with the URL template
    of the answer, asked for with the [vis_params] of [add_ee_layer] (its
    own default when left out); called without a name it hands the name
    [None] of its own default to [TileLayer], not the [Layer untitled] of
    [ee_tile_layer], so that the widget refuses the layer: the call raises
    after the service has been asked, and no layer is added. *)
Theorem add_ee_layer_registers (c : ee_class) (h : ee_handle)
    (vis_params : option loc) (name shown opacity : option pyval)
    (w : World) (map_id : MapId) :
  let l := default add_ee_layer_vis_default vis_params in
  let reply :=
    if decide (c = ImageCollection)
    then getMapId Image (mosaic h) l (heap w) (service w)
    else getMapId c h l (heap w) (service w) in
  c ∈ [Image; ImageCollection; Feature; FeatureCollection] →
  fst (fst reply) = inr map_id →
  opacity_accepted (default (PFloat 1) opacity) = true →
  visible_accepted (default (PBool true) shown) = true →
  (∀ n, name = Some (PStr n) →
     ∃ w',
       add_ee_layer (EE c h) vis_params name shown opacity w = (Ok tt, w') ∧
       layers w' = layers w ++
         [RasterLayer
            {| tl_url := url_format (tile_fetcher map_id);
               tl_name := PStr n;
               tl_opacity := default (PFloat 1) opacity;
               tl_visible := default (PBool true) shown;
               tl_attribution := "Google Earth Engine" |}]) ∧
  (name = None →
   let w' := snd (add_ee_layer (EE c h) vis_params name shown opacity w) in
   fst (add_ee_layer (EE c h) vis_params name shown opacity w)
   = Raise TraitError ∧
   layers w' = layers w ∧ service w' = snd reply).
Proof.
  intros l reply Hc Ha Ho Hv.
  assert (recognized (EE c h) = true ∧ c ≠ Geometry) as [Hr Hg].
  { rewrite !elem_of_cons in Hc.
    destruct Hc as [->|[->|[->|[->|Hc]]]]; try done.
    by apply elem_of_nil in Hc. }
  split.
  - intros n ->. unfold add_ee_layer, bind, add_layer.
    rewrite (ee_tile_layer_run c h _ _ _ _ w Hr).
    destruct (decide (c = Geometry)); [done|]. simpl.
    subst reply l.
    destruct (decide (c = ImageCollection)); simpl in *; rewrite Ha, Ho, Hv;
      simpl; eexists; split; reflexivity.
  - intros ->. unfold add_ee_layer, bind, add_layer.
    rewrite (ee_tile_layer_run c h _ _ _ _ w Hr).
    destruct (decide (c = Geometry)); [done|]. simpl.
    subst reply l.
    destruct (decide (c = ImageCollection)); simpl in *; by rewrite Ha.
Qed.

(** X11. [ee_tile_layer] only builds the layer: it never changes the
    layers of the map, the file system or the random generator.
    [add_ee_layer] adds a layer only when it returns; when it raises, the
    layers are as before, and for an object that is not recognised the
    whole world is. *)
Theorem ee_layers_only_on_success (o : pyobj) (vis_params : option loc)
    (name shown opacity : option pyval) (w : World) :
  (let w' := snd (ee_tile_layer o vis_params name shown opacity w) in
   layers w' = layers w ∧ fs w' = fs w ∧ rng w' = rng w) ∧
  (let w' := snd (add_ee_layer o vis_params name shown opacity w) in
   fs w' = fs w ∧ rng w' = rng w ∧
   ∀ e, fst (add_ee_layer o vis_params name shown opacity w) = Raise e →
        layers w' = layers w) ∧
  (recognized o = false →
   add_ee_layer o vis_params name shown opacity w =
     (Raise (AttributeError
        "ee_object must be an Earth Engine Image, Feature, or Collection."),
      w)).
Proof.
  assert (∀ v n s p,
            let w' := snd (ee_tile_layer o v n s p w) in
            layers w' = layers w ∧ fs w' = fs w ∧ rng w' = rng w) as Hk.
  { intros v n s p. destruct (recognized o) eqn:Hr.
    - destruct o as [c h|x]; [|done].
      rewrite (ee_tile_layer_run c h v n s p w Hr).
      destruct (decide (c = Geometry)); [done|]. simpl.
      by destruct (decide (c = ImageCollection)).
    - by rewrite ee_tile_layer_rejects. }
  split; [apply Hk|]. split.
  - unfold add_ee_layer, bind, add_layer.
    match goal with
    | |- context [ee_tile_layer o ?v ?n ?s ?p w] =>
        destruct (Hk v n s p) as (Hl & Hf & Hn);
        destruct (ee_tile_layer o v n s p w) as [[t|e0] w1]
    end; simpl in *; done.
  - intros Hr. unfold add_ee_layer, bind.
    by rewrite ee_tile_layer_rejects.
Qed.


End EarthEngineMore.

(** ** [Map.__init__] *)

Lemma setdefault_union (key : string) (value : pyval)
    (kwargs : gmap string pyval) :
  setdefault key value kwargs = kwargs ∪ {[key := value]}.
Proof.
  unfold setdefault. apply map_eq. intros k. rewrite lookup_union.
  destruct (kwargs !! key) as [v|] eqn:E.
  - destruct (decide (key = k)) as [<-|Hne].
    + by rewrite E, lookup_singleton_eq.
    + rewrite lookup_singleton_ne by done. by destruct (kwargs !! k).
  - destruct (decide (key = k)) as [<-|Hne].
    + by rewrite lookup_insert_eq, E, lookup_singleton_eq.
    + rewrite lookup_insert_ne, lookup_singleton_ne by done.
      by destruct (kwargs !! k).
Qed.

Lemma lookup_setdefault_ne (key k : string) (value : pyval)
    (kwargs : gmap string pyval) :
  key ≠ k → setdefault key value kwargs !! k = kwargs !! k.
Proof.
  intros Hne. unfold setdefault.
  destruct (kwargs !! key); [done|]. by rewrite lookup_insert_ne.
Qed.

Section Constructor.
Context `{C : Collaborators}.

(** X12. The keyword arguments the constructor hands on to the widget are
    those of the caller, completed by the three defaults: whatever the
    caller gave, [height] and [google_map] included, is handed on as given,
    and a default is used only for a key the caller left out. *)
Theorem Map_init_kwargs (kwargs : gmap string pyval) :
  widget_kwargs (Map_init kwargs) =
    kwargs ∪ <["center" := PList [PInt 40; PInt (-100)]]>
               (<["zoom" := PInt 4]>
                  (<["scroll_wheel_zoom" := PBool true]> ∅))
  ∧ ∀ k v, kwargs !! k = Some v →
           widget_kwargs (Map_init kwargs) !! k = Some v.
Proof.
  assert (widget_kwargs (Map_init kwargs) =
          kwargs ∪ <["center" := PList [PInt 40; PInt (-100)]]>
                     (<["zoom" := PInt 4]>
                        (<["scroll_wheel_zoom" := PBool true]> ∅))) as H.
  { unfold Map_init.
    destruct (negb (Map_accepts _)); simpl;
      [|destruct (negb (height_accepted _)); simpl;
        [|destruct (eq_str _ _); simpl]].
    all: rewrite !setdefault_union, !insert_union_singleton_l.
    all: by rewrite (right_id_L ∅ (∪)), !(assoc_L (∪)). }
  split; [exact H|].
  intros k v Hk. rewrite H. by apply lookup_union_Some_l.
Qed.

(** X13. When the widget takes the keyword arguments, the constructor goes
    on with the two options it reads itself; they come from the caller's
    keyword arguments and the defaults do not touch them.  A height that is
    a string or [None] (the one given, or [500px]) is put into the layout,
    the five controls are added and then the base layer: the satellite
    layer exactly when [google_map] is the string [HYBRID], in this
    spelling, the road map for every other value and when it is left out.
    Any other height stops the constructor with the error of the layout:
    no control and no base layer is added. *)
Theorem Map_init_options (kwargs : gmap string pyval) :
  Map_accepts (widget_kwargs (Map_init kwargs)) = true →
  let height := default (PStr "500px") (kwargs !! "height") in
  (height_accepted height = true →
   raised (Map_init kwargs) = None ∧
   layout_height (Map_init kwargs) = Some height ∧
   controls (Map_init kwargs) =
     [ FullScreenControl; LayersControl "topright"; DrawControl "topleft";
       MeasureControl; ScaleControl "bottomleft" ] ∧
   (kwargs !! "google_map" = Some (PStr "HYBRID") →
    google_layer (Map_init kwargs) =
      Some {| bl_url := "https://mt1.google.com/vt/lyrs=y&x={x}&y={y}&z={z}";
              bl_attribution := "Google"; bl_name := "Google Satellite" |}) ∧
   (kwargs !! "google_map" ≠ Some (PStr "HYBRID") →
    google_layer (Map_init kwargs) =
      Some {| bl_url := "https://mt1.google.com/vt/lyrs=m&x={x}&y={y}&z={z}";
              bl_attribution := "Google"; bl_name := "Google Maps" |})) ∧
  (height_accepted height = false →
   raised (Map_init kwargs) = Some TraitError ∧
   layout_height (Map_init kwargs) = None ∧
   controls (Map_init kwargs) = [] ∧
   google_layer (Map_init kwargs) = None).
Proof.
  intros Ha height.
  assert (Map_accepts
            (setdefault "scroll_wheel_zoom" (PBool true)
               (setdefault "zoom" (PInt 4)
                  (setdefault "center" (PList [PInt 40; PInt (-100)])
                     kwargs))) = true) as Ha'.
  { revert Ha. unfold Map_init.
    destruct (negb (Map_accepts _)); simpl; [done|].
    destruct (negb (height_accepted _)); simpl; [done|].
    by destruct (eq_str _ _). }
  unfold Map_init, dict_get. rewrite Ha'. simpl.
  rewrite !lookup_setdefault_ne by done. fold height.
  split; intros Hh; rewrite Hh; simpl; [|done].
  destruct (kwargs !! "google_map") as [v|] eqn:E; simpl.
  - destruct (eq_str v "HYBRID") eqn:Ev; simpl.
    + repeat (split; [done|]). intros Hn. exfalso. apply Hn.
      destruct v; try done. simpl in Ev.
      by apply bool_decide_eq_true_1 in Ev as ->.
    + repeat (split; [done|]). split; [|done]. intros [= ->]. done.
  - repeat (split; [done|]). split; done.
Qed.

End Constructor.

(** * The statements at work on the small instance *)

#[local] Existing Instance Demo.collaborators.

Example split_on_slash : split_on "/" "a//b/" = ["a"; ""; "b"; ""].
Proof. reflexivity. Qed.

Example abspath_relative :
  abspath ["home"] "../data/./points.shp" = ["data"; "points.shp"].
Proof. reflexivity. Qed.

Example abspath_above_root : abspath ["home"] "/../x//y/" = ["x"; "y"].
Proof. reflexivity. Qed.

Example makedirs_through_file :
  makedirs ["data"; "notes"; "sub"] Demo.disk = inl ENOTDIR.
Proof. reflexivity. Qed.

Example makedirs_onto_file : makedirs ["data"; "notes"] Demo.disk = inl EEXIST.
Proof. reflexivity. Qed.

Example disk_wf : fs_wf Demo.disk.
Proof.
  split; [reflexivity|]. unfold Demo.disk. intros p n Hp k Hk.
  repeat (rewrite lookup_insert in Hp; case_decide;
          [subst p; simpl in Hk;
           (destruct k as [|[|k]]; [lia|reflexivity|simpl in Hk; lia]) || lia
          |]).
  by rewrite lookup_empty in Hp.
Qed.

(** The codec writes a tuple as an array and reads an array as a list. *)
Example codec_lists_tuples :
  json_dumps Demo.points = json_dumps (jsonified Demo.points) ∧
  json_loads (json_dumps Demo.points) = inr (jsonified Demo.points).
Proof. split; reflexivity. Qed.

(** A collection without tuples comes back as it was. *)
Example codec_round_trip :
  json_loads (json_dumps Demo.no_points) = inr Demo.no_points.
Proof. reflexivity. Qed.

(** An output path that is a directory: the collection is read, and
    [open] fails. *)
Example output_is_directory :
  fst (shp_to_geojson "/data/points.shp" (Some "/data") Demo.world)
  = Raise (OSError EISDIR).
Proof. reflexivity. Qed.

(** [os.path.exists] holds of a directory too: the guard lets it pass and
    the error is the one of the reader. *)
Example input_is_directory :
  shp_to_geojson "/data" None Demo.world
  = (Raise (Propagated "cannot open"), log (EvReader ["data"]) Demo.world).
Proof. reflexivity. Qed.

Example add_shapefile_layer :
  layers (snd (add_shapefile "/data/points.shp" None None Demo.world))
  = [VectorLayer {| gj_data := Demo.points; gj_style := default_style;
                    gj_name := "Untitled_7" |}].
Proof. reflexivity. Qed.

(** After two calls that left [vis_params] out, a third one still passes
    the empty default. *)
Example default_vis_params_seen :
  last (trace (snd (ee_tile_layer (EE Image "srtm") None None None None
                      (run_calls
                         [ Call_add_ee_layer (EE Image "srtm") None None None
                             None;
                           Call_ee_tile_layer (EE ImageCollection "landsat")
                             None None None None ]
                         Demo.world))))
  = Some (EvGetMapId Image "srtm" ee_tile_layer_vis_default
            (Some (PDict []))).
Proof. reflexivity. Qed.

Lemma demo_getMapId_reads_only : @getMapId_reads_only Demo.collaborators.
Proof.
  intros c h l hp sv. simpl. unfold Demo.tile_service.
  destruct (bool_decide _); reflexivity.
Defined.



Lemma shp_to_geojson_not_found_witness :
  shp_to_geojson "points.shp" (Some "/data/notes") Demo.world =
    (Raise (FileNotFoundError "The provided shapefile could not be found."),
     Demo.world)
  ∧ fs (snd (shp_to_geojson "points.shp" (Some "/data/notes") Demo.world))
    = fs Demo.world
  ∧ trace (snd (shp_to_geojson "points.shp" (Some "/data/notes") Demo.world))
    = trace Demo.world.
Proof.
  apply (shp_to_geojson_not_found Demo.world "points.shp"
           (Some "/data/notes")).
  vm_compute. reflexivity.
Defined.

Lemma add_geojson_style_witness :
  ∃ g,
    layers (snd (add_geojson Demo.points
                   (Some (PDict [("color", PStr "#ff0000")])) None Demo.world))
    = layers Demo.world ++ [VectorLayer g] ∧
    (Some (PDict [("color", PStr "#ff0000")]) = None ∨
     Some (PDict [("color", PStr "#ff0000")]) = Some PNone →
     gj_style g =
       PDict [ ("stroke", PBool true); ("color", PStr "#000000");
               ("weight", PInt 2); ("opacity", PInt 1);
               ("fill", PBool true); ("fillColor", PStr "#0000ff");
               ("fillOpacity", PFloat (4 # 10)) ]) ∧
    (∀ given, Some (PDict [("color", PStr "#ff0000")]) = Some given →
              given ≠ PNone → gj_style g = given).
Proof.
  apply (add_geojson_style Demo.points
           (Some (PDict [("color", PStr "#ff0000")])) None Demo.world).
  reflexivity.
Defined.

Lemma shp_to_geojson_deterministic_witness :
  fst (shp_to_geojson "/data/points.shp" None
         (snd (shp_to_geojson "/data/points.shp" None Demo.world))) =
  fst (shp_to_geojson "/data/points.shp" None Demo.world).
Proof.
  exact (proj2 (proj2 (shp_to_geojson_deterministic "/data/points.shp"))
           Demo.world).
Defined.

Lemma shp_to_geojson_overwrites_witness :
  ∃ w1,
    shp_to_geojson "/data/points.shp" (Some "/data/notes") Demo.world
    = (Ok Demo.points, w1) ∧
    lookup_path (fs Demo.world) ["data"; "notes"] = Some (File "old") ∧
    lookup_path (fs w1) ["data"; "notes"]
    = Some (File (json_dumps Demo.points)).
Proof.
  destruct (shp_to_geojson_overwrites Demo.world "/data/points.shp"
              "/data/notes" ["data"; "points.shp"] Demo.points)
    as (w1 & fs1 & Hrun & _ & _ & _ & _ & Hfile & _).
  - vm_compute. eexists. reflexivity.
  - vm_compute. reflexivity.
  - vm_compute. reflexivity.
  - vm_compute. reflexivity.
  - exists w1. split; [exact Hrun|]. split; [vm_compute; reflexivity|].
    exact Hfile.
Defined.

Lemma ee_tile_layer_unsupported_type_witness :
  ee_tile_layer (NotEE (PStr "LANDSAT/LC08")) None None None None Demo.world =
    (Raise (AttributeError
       "ee_object must be an Earth Engine Image, Feature, or Collection."),
     Demo.world).
Proof.
  exact (proj1 (proj2 (ee_tile_layer_unsupported_type
                         (NotEE (PStr "LANDSAT/LC08")) None None None None
                         Demo.world)) eq_refl).
Defined.

(** Two recognised objects for which no tile layer comes back: an Image
    the service has no answer for, whose error is passed on, and a
    Geometry, which passes the guard and has no [getMapId]. *)
Lemma ee_tile_layer_recognized_no_layer :
  recognized (C := Demo.collaborators) (EE Image "") = true ∧
  fst (ee_tile_layer (C := Demo.collaborators) (EE Image "") None None None
         None Demo.world)
  = Raise (Propagated "empty expression") ∧
  recognized (C := Demo.collaborators) (EE Geometry "aoi") = true ∧
  fst (ee_tile_layer (C := Demo.collaborators) (EE Geometry "aoi") None None
         None None Demo.world)
  = Raise (AttributeError "'Geometry' object has no attribute 'getMapId'").
Proof. repeat split. Qed.

Lemma add_geojson_invalid_input_witness :
  fst (add_geojson (PList [Demo.point 1 2]) None None Demo.world)
  = Raise (TypeError "GeoJSON must be a file path or dict.").
Proof.
  exact (proj1 (proj2 (add_geojson_invalid_input (PList [Demo.point 1 2])
                         None None Demo.world)) (conj eq_refl eq_refl)).
Defined.

Lemma add_geojson_layer_name_witness :
  ∃ g,
    layers (snd (add_geojson Demo.points None (Some "Untitled") Demo.world))
    = layers Demo.world ++ [VectorLayer g] ∧
    (Some "Untitled" = None ∨ Some "Untitled" = Some "Untitled" →
     gj_name g = "Untitled" +:+ "_" +:+ fst (random_string (rng Demo.world))) ∧
    (∀ name, Some "Untitled" = Some name → name ≠ "Untitled" →
             gj_name g = name).
Proof.
  apply (add_geojson_layer_name Demo.points None (Some "Untitled")
           Demo.world).
  reflexivity.
Defined.

Lemma vis_params_never_mutated_witness :
  heap (run_calls
          [ Call_add_ee_layer (EE Image "srtm") None None None None;
            Call_ee_tile_layer (EE ImageCollection "landsat") None None None
              None ]
          Demo.world)
  = heap_at_definition.
Proof.
  exact (proj1 (proj2 (vis_params_never_mutated demo_getMapId_reads_only))
           _ Demo.world).
Defined.


(** ** The further properties on the small instance *)

Lemma shp_to_geojson_reader_error_witness :
  fst (shp_to_geojson "/data/notes" (Some "/data/points.shp") Demo.world)
  = Raise (Propagated "not a shapefile") ∧
  fs (snd (shp_to_geojson "/data/notes" (Some "/data/points.shp")
             Demo.world)) = fs Demo.world ∧
  layers (snd (shp_to_geojson "/data/notes" (Some "/data/points.shp")
                 Demo.world)) = layers Demo.world.
Proof.
  apply (shp_to_geojson_reader_error Demo.world "/data/notes"
           (Some "/data/points.shp") "not a shapefile").
  - vm_compute. eexists. reflexivity.
  - right. exists ["data"; "notes"]. split; reflexivity.
Defined.

Lemma shp_to_geojson_again_witness :
  fst (shp_to_geojson "/data/points.shp" (Some "out/a/b.json")
         (snd (shp_to_geojson "/data/points.shp" (Some "out/a/b.json")
                 Demo.world)))
  = Ok Demo.points ∧
  fs (snd (shp_to_geojson "/data/points.shp" (Some "out/a/b.json")
             (snd (shp_to_geojson "/data/points.shp" (Some "out/a/b.json")
                     Demo.world))))
  = fs (snd (shp_to_geojson "/data/points.shp" (Some "out/a/b.json")
               Demo.world)).
Proof.
  apply (shp_to_geojson_again Demo.world "/data/points.shp" "out/a/b.json"
           ["data"; "points.shp"] ["data"; "points.shp"] Demo.points).
  - vm_compute. eexists. reflexivity.
  - reflexivity.
  - reflexivity.
  - reflexivity.
  - vm_compute. eexists. reflexivity.
  - reflexivity.
  - reflexivity.
Defined.

Lemma shp_to_geojson_output_refused_witness :
  ∃ e, fst (shp_to_geojson "/data/points.shp" (Some "/data") Demo.world)
       = Raise (OSError e) ∧ e ≠ ENOENT.
Proof.
  apply (shp_to_geojson_output_refused Demo.world "/data/points.shp" "/data"
           ["data"; "points.shp"] Demo.points).
  - vm_compute. eexists. reflexivity.
  - reflexivity.
  - reflexivity.
  - reflexivity.
Defined.


Lemma add_shapefile_conversion_error_witness :
  fst (add_shapefile "missing.shp" None None Demo.world)
  = Raise (FileNotFoundError "The provided shapefile could not be found.") ∧
  layers (snd (add_shapefile "missing.shp" None None Demo.world))
  = layers Demo.world ∧
  rng (snd (add_shapefile "missing.shp" None None Demo.world))
  = rng Demo.world ∧
  fs (snd (add_shapefile "missing.shp" None None Demo.world))
  = fs Demo.world.
Proof.
  apply (add_shapefile_conversion_error Demo.world "missing.shp" None None).
  reflexivity.
Defined.

Lemma add_ee_layer_registers_witness :
  (∀ n, Some (PStr "Landsat 8") = Some (PStr n) →
     ∃ w',
       add_ee_layer (C := Demo.collaborators) (EE ImageCollection "landsat")
         None (Some (PStr "Landsat 8")) None None Demo.world = (Ok tt, w') ∧
       layers w' = layers Demo.world ++
         [RasterLayer
            {| tl_url :=
                 "https://earthengine.googleapis.com/map/mosaic(landsat)/{z}/{x}/{y}";
               tl_name := PStr n;
               tl_opacity := PFloat 1;
               tl_visible := PBool true;
               tl_attribution := "Google Earth Engine" |}]) ∧
  fst (add_ee_layer (C := Demo.collaborators) (EE ImageCollection "landsat")
         None None None None Demo.world) = Raise TraitError.
Proof.
  split.
  - apply (add_ee_layer_registers (C := Demo.collaborators) ImageCollection
             "landsat" None (Some (PStr "Landsat 8")) None None Demo.world
             {| tile_fetcher :=
                  {| url_format :=
                       "https://earthengine.googleapis.com/map/mosaic(landsat)/{z}/{x}/{y}" |} |});
      [apply list_elem_of_further, list_elem_of_here|reflexivity..].
  - apply (add_ee_layer_registers (C := Demo.collaborators) ImageCollection
             "landsat" None None None None Demo.world
             {| tile_fetcher :=
                  {| url_format :=
                       "https://earthengine.googleapis.com/map/mosaic(landsat)/{z}/{x}/{y}" |} |});
      [apply list_elem_of_further, list_elem_of_here|reflexivity..].
Defined.


Lemma Map_init_options_witness :
  (let kwargs : gmap string pyval := <["height" := PInt 300]> ∅ in
   raised (Map_init (C := Demo.collaborators) kwargs) = Some TraitError ∧
   layout_height (Map_init (C := Demo.collaborators) kwargs) = None ∧
   controls (Map_init (C := Demo.collaborators) kwargs) = [] ∧
   google_layer (Map_init (C := Demo.collaborators) kwargs) = None) ∧
  (let kwargs : gmap string pyval :=
     <["google_map" := PStr "HYBRID"]> (<["height" := PStr "300px"]> ∅) in
   layout_height (Map_init (C := Demo.collaborators) kwargs)
   = Some (PStr "300px") ∧
   google_layer (Map_init (C := Demo.collaborators) kwargs) =
     Some {| bl_url := "https://mt1.google.com/vt/lyrs=y&x={x}&y={y}&z={z}";
             bl_attribution := "Google"; bl_name := "Google Satellite" |}).
Proof.
  split.
  - apply (Map_init_options (C := Demo.collaborators)
             (<["height" := PInt 300]> ∅)).
    + vm_compute. reflexivity.
    + reflexivity.
  - destruct (Map_init_options (C := Demo.collaborators)
                (<["google_map" := PStr "HYBRID"]>
                   (<["height" := PStr "300px"]> ∅))) as [Hyes _].
    + vm_compute. reflexivity.
    + destruct Hyes as (_ & Hh & _ & Hs & _).
      * vm_compute. reflexivity.
      * split; [exact Hh|]. apply Hs. vm_compute. reflexivity.
Defined.
